(** * Deployment pipeline (src/deployment/pipeline.py): shallow embedding

    The pipeline talks to the outside world (shell, file system, HTTP,
    environment variables, clock).  The embedding threads the trace of
    everything the run has done so far; the outside world is a record of
    oracles, each of which answers a request knowing that trace, so answers
    may depend on the whole history of the run.  Python exceptions are an
    explicit error result. *)

From Stdlib Require Import String Ascii List ZArith Bool Lia Arith.
From Stdlib Require Import DecimalString.
Import ListNotations.
Open Scope string_scope.
Open Scope Z_scope.
Set Warnings "-register-all".

(** ** Values exchanged with the outside world *)

(** A parsed YAML document, as [yaml.safe_load] returns it.  Mappings keep
    their key order (Python dicts do, and the file is dumped with
    [sort_keys=False]).  These documents are trees: no object is shared
    between two places.  Documents with anchors and aliases, where
    [safe_load] shares one object, are in [SharedYaml] below. *)
Inductive yaml : Type :=
| YNull
| YBool (b : bool)
| YInt (z : Z)
| YFloat (repr : string)
| YStr (s : string)
| YSeq (items : list yaml)
| YMap (entries : list (string * yaml)).

(** What [subprocess.run(..., capture_output=True)] observes. *)
Record ShellResult := mkShell {
  returncode : Z;
  stdout : string;
  stderr : string
}.

(** What [requests.get] / [requests.post] observe: a response, or an
    exception raised by the transport. *)
Inductive HttpResult :=
| Response (status_code : Z) (text : string)
| NetworkError (msg : string).

(** The JSON bodies the pipeline posts. *)
Inductive JsonBody :=
| SyncBody (prune dryRun : bool)
| SlackBody (color title service environment duration status : string).

(** Result of opening a file and running [yaml.safe_load] on it, for files
    without aliases. *)
Inductive LoadResult :=
| Malformed (msg : string)
| Parsed (doc : yaml).

(** Python exceptions the pipeline can see. *)
Inductive ExnClass :=
| FileNotFoundError | YAMLError | KeyError | TypeError | AttributeError
| PlainException | OSError | UnicodeDecodeError.

Record Exn := mkExn { exn_class : ExnClass; exn_msg : string }.

(** How [subprocess.run(cmd, shell=True, capture_output=True, text=True)]
    ends, the exit status not yet looked at: the command completed and its
    output was decoded, or the call raised something else than
    [CalledProcessError] ([OSError] when the shell cannot be started,
    [UnicodeDecodeError] when the output is not text). *)
Inductive ShellOutcome :=
| Completed (r : ShellResult)
| Crashed (e : Exn).

(** ** Trace of a run *)

Inductive Event :=
| EvPrint (line : string)
| EvExec (cmd : string) (check : bool) (rc : Z)
| EvExecRaised (cmd : string) (check : bool) (e : Exn)
| EvGetOutput (cmd : string)
| EvPathExists (path : string) (found : bool)
| EvReadYaml (path : string)
| EvWriteYaml (path : string) (doc : yaml)
| EvHttpGet (url : string) (timeout : Z) (res : HttpResult)
| EvHttpPost (url : string) (bearer : option string) (body : JsonBody)
             (res : HttpResult)
| EvSleep (seconds : Z).

Definition Trace := list Event.

(** ** The outside world *)

(** What the process environment, the shell, the file system, the network
    and the clock answer.  All but [getenv] and [isoformat] may depend on
    what has happened so far.  [getoutput] is the text that
    [subprocess.getoutput] returns; reading the manifest either parses or
    fails to parse, and writing it succeeds. *)
Record World := mkWorld {
  getenv : string -> option string;
  shell : Trace -> string -> ShellOutcome;
  getoutput : Trace -> string -> string;
  path_exists : Trace -> string -> bool;
  load_yaml : Trace -> string -> LoadResult;
  http_get : Trace -> string -> HttpResult;
  http_post : Trace -> string -> option string -> JsonBody -> HttpResult;
  now : Trace -> Z;
  isoformat : Z -> string
}.

(** ** The monad: trace passing with exceptions *)

Inductive Res (A : Type) :=
| Ok (a : A)
| Raise (e : Exn).
Arguments Ok {A} a.
Arguments Raise {A} e.

Definition M (A : Type) := Trace -> Res A * Trace.

Definition ret {A} (a : A) : M A := fun t => (Ok a, t).

Definition bind {A B} (m : M A) (k : A -> M B) : M B :=
  fun t => match m t with
           | (Ok a, t') => k a t'
           | (Raise e, t') => (Raise e, t')
           end.

Definition raise {A} (e : Exn) : M A := fun t => (Raise e, t).

(** [try: m except Exception as e: h e] *)
Definition try_except {A} (m : M A) (h : Exn -> M A) : M A :=
  fun t => match m t with
           | (Ok a, t') => (Ok a, t')
           | (Raise e, t') => h e t'
           end.

Definition emit (e : Event) : M unit := fun t => (Ok tt, (t ++ [e])%list).

(** Ask an oracle, which sees the trace so far. *)
Definition ask {A} (f : Trace -> A) : M A := fun t => (Ok (f t), t).

Notation "x <- m ;; k" := (bind m (fun x => k))
  (at level 61, m at next level, right associativity).
Notation "m ;;; k" := (bind m (fun _ => k))
  (at level 61, right associativity).

Definition print (line : string) : M unit := emit (EvPrint line).

(** ** Small Python helpers *)

Definition nl : string := String (ascii_of_nat 10) EmptyString.

Fixpoint repeat_string (s : string) (n : nat) : string :=
  match n with
  | O => ""
  | S n' => s ++ repeat_string s n'
  end.

(** [str(z)] for an integer. *)
Definition str_of_Z (z : Z) : string :=
  NilZero.string_of_int (Z.to_int z).

(** Python truthiness of an optional string: [None] and [""] are falsy. *)
Definition truthy (o : option string) : bool :=
  match o with
  | None => false
  | Some s => negb (s =? "")%string
  end.

(** [os.getenv(name, default)] *)
Definition getenv_default (w : World) (name default : string) : string :=
  match getenv w name with
  | Some v => v
  | None => default
  end.

(** Is the byte a continuation byte of UTF-8 ([10xxxxxx])?  Strings hold
    UTF-8 text; a character is a byte that is no continuation byte, with
    the continuation bytes that follow it. *)
Definition is_continuation (a : ascii) : bool :=
  match a with
  | Ascii _ _ _ _ _ _ b6 b7 => b7 && negb b6
  end.

(** [s[:n]]: the first [n] characters. *)
Fixpoint take_chars (n : nat) (s : string) : string :=
  match s with
  | EmptyString => EmptyString
  | String a s' =>
      if is_continuation a then String a (take_chars n s')
      else match n with
           | O => EmptyString
           | S n' => String a (take_chars n' s')
           end
  end.


(** [sep.join(parts)] *)
Fixpoint join (sep : string) (parts : list string) : string :=
  match parts with
  | [] => ""
  | [p] => p
  | p :: ps => p ++ sep ++ join sep ps
  end.

(** [x in s] for a one-character [x]. *)
Fixpoint contains_char (c : ascii) (s : string) : bool :=
  match s with
  | EmptyString => false
  | String a s' => if Ascii.eqb a c then true else contains_char c s'
  end.

(** [s.split(c)] for a one-character separator: never empty. *)
Fixpoint split (c : ascii) (s : string) : list string :=
  match s with
  | EmptyString => [""]
  | String a s' =>
      if Ascii.eqb a c then "" :: split c s'
      else match split c s' with
           | [] => [String a ""]
           | p :: ps => String a p :: ps
           end
  end.

(** [str(Path(s))] for a relative path [s]: pathlib drops the empty and
    the [.] components and joins the others with [/]. *)
Definition path_str (s : string) : string :=
  join "/"
    (filter (fun p => negb (p =? "")%string && negb (p =? ".")%string)
       (split "/" s)).

(** ** The manifest document *)

(** [d.get(k)] on an ordered mapping. *)
Fixpoint dict_get (k : string) (d : list (string * yaml)) : option yaml :=
  match d with
  | [] => None
  | (k', v) :: d' => if (k' =? k)%string then Some v else dict_get k d'
  end.

(** [d[k] = v]: an existing key keeps its position, a new key goes last. *)
Fixpoint dict_set (k : string) (v : yaml) (d : list (string * yaml))
  : list (string * yaml) :=
  match d with
  | [] => [(k, v)]
  | (k', v') :: d' =>
      if (k' =? k)%string then (k', v) :: d' else (k', v') :: dict_set k v d'
  end.

Definition py_type_name (v : yaml) : string :=
  match v with
  | YNull => "NoneType"
  | YBool _ => "bool"
  | YInt _ => "int"
  | YFloat _ => "float"
  | YStr _ => "str"
  | YSeq _ => "list"
  | YMap _ => "dict"
  end.

(** [TypeError] of [v['image']] when [v] is not a mapping. *)
Definition subscript_error (v : yaml) : Exn :=
  mkExn TypeError
    match v with
    | YSeq _ => "list indices must be integers or slices, not str"
    | YStr _ => "string indices must be integers, not 'str'"
    | _ => "'" ++ py_type_name v ++ "' object is not subscriptable"
    end.

(** [TypeError] of [v[key] = x] when [v] is not a mapping. *)
Definition assign_error (v : yaml) : Exn :=
  mkExn TypeError
    match v with
    | YSeq _ => "list indices must be integers or slices, not str"
    | _ => "'" ++ py_type_name v ++ "' object does not support item assignment"
    end.

(** [image_tag.split(':')[1] if ':' in image_tag else 'latest'] *)
Definition extract_tag (image_tag : string) : string :=
  if contains_char ":" image_tag
  then nth 1 (split ":" image_tag) ""
  else "latest".

(** The in-memory mutation [update_manifest] performs on the loaded
    document (lines 150-155), given the timestamp text and the updater. *)
Definition update_doc (tag ts actor : string) (values : yaml) : Exn + yaml :=
  match values with
  | YMap top =>
      match dict_get "image" top with
      | None => inl (mkExn KeyError "'image'")
      | Some (YMap img) =>
          let top1 := dict_set "image" (YMap (dict_set "tag" (YStr tag) img)) top in
          let dep := match dict_get "deployment" top1 with
                     | Some d => d
                     | None => YMap []
                     end in
          let top2 := dict_set "deployment" dep top1 in
          match dep with
          | YMap depm =>
              let depm1 := dict_set "lastUpdated" (YStr ts) depm in
              let depm2 := dict_set "updatedBy" (YStr actor) depm1 in
              inr (YMap (dict_set "deployment" (YMap depm2) top2))
          | other => inl (assign_error other)
          end
      | Some other => inl (assign_error other)
      end
  | other => inl (subscript_error other)
  end.

(** ** Manifest documents with aliases *)

Module SharedYaml.

(** A document in which [&anchor] and [*alias] occur, as [yaml.safe_load]
    builds it: the node that carries an anchor and every alias of it are
    one Python object.  That object is held once, in the table [anchors],
    and each place where it occurs refers to it by name; an object that
    occurs at one place only is written there. *)
Inductive node :=
| Inline (o : obj)
| Alias (anchor : string)
with obj :=
| ONull
| OBool (b : bool)
| OInt (z : Z)
| OFloat (repr : string)
| OStr (s : string)
| OSeq (items : list node)
| OMap (entries : list (string * node)).

Record doc := mkDoc {
  anchors : list (string * obj);
  root : node
}.

(** [d.get(k)] and [d[k] = v] on an ordered mapping, as [dict_get] and
    [dict_set]. *)
Fixpoint get {V} (k : string) (d : list (string * V)) : option V :=
  match d with
  | [] => None
  | (k', v) :: d' => if (k' =? k)%string then Some v else get k d'
  end.

Fixpoint set {V} (k : string) (v : V) (d : list (string * V))
  : list (string * V) :=
  match d with
  | [] => [(k, v)]
  | (k', v') :: d' =>
      if (k' =? k)%string then (k', v) :: d' else (k', v') :: set k v d'
  end.

(** The object at a place.  There is none for an alias without anchor; the
    loader rejects such a file, so no loaded document has one. *)
Definition deref (d : doc) (n : node) : option obj :=
  match n with
  | Inline o => Some o
  | Alias a => get a (anchors d)
  end.

(** The Python type of an object, as a tree of that type. *)
Definition shape (o : obj) : yaml :=
  match o with
  | ONull => YNull
  | OBool b => YBool b
  | OInt z => YInt z
  | OFloat r => YFloat r
  | OStr s => YStr s
  | OSeq _ => YSeq []
  | OMap _ => YMap []
  end.






(** A tree, as a document without anchors. *)
Fixpoint embed (y : yaml) : obj :=
  match y with
  | YNull => ONull
  | YBool b => OBool b
  | YInt z => OInt z
  | YFloat r => OFloat r
  | YStr s => OStr s
  | YSeq items => OSeq (map (fun i => Inline (embed i)) items)
  | YMap entries =>
      OMap (map (fun kv => let '(k, v) := kv in (k, Inline (embed v)))
              entries)
  end.



(** Reading [values[k1]] and [values[k1][k2]], through aliases. *)
Definition field (k : string) (d : doc) : option obj :=
  match deref d (root d) with
  | Some (OMap top) =>
      match get k top with
      | Some n => deref d n
      | None => None
      end
  | _ => None
  end.

Definition subfield (k1 k2 : string) (d : doc) : option obj :=
  match field k1 d with
  | Some (OMap m) =>
      match get k2 m with
      | Some n => deref d n
      | None => None
      end
  | _ => None
  end.


End SharedYaml.

(** ** DeploymentPipeline *)

Record Pipeline := mkPipeline {
  service_name : string;
  environment : string;
  dry_run : bool;
  config : yaml;
  deployment_start : Z
}.

Section Stages.

Variable w : World.
Variable self : Pipeline.

(** [_run_command]: in dry-run mode the command is printed, not run.
    With [check=True] a non-zero exit raises [CalledProcessError] inside
    [subprocess.run], which is caught here and turned into
    [(returncode, stderr)].  Any other exception of [subprocess.run] is
    not caught and leaves the function. *)
Definition _run_command (cmd : string) (check : bool) : M (Z * string) :=
  if dry_run self then
    print ("[DRY RUN] Would execute: " ++ cmd) ;;;
    ret (0, "dry-run-output")
  else
    o <- ask (fun t => shell w t cmd) ;;
    match o with
    | Completed r =>
        emit (EvExec cmd check (returncode r)) ;;;
        if check && negb (returncode r =? 0)
        then ret (returncode r, stderr r)
        else ret (returncode r, stdout r)
    | Crashed e =>
        emit (EvExecRaised cmd check e) ;;;
        raise e
    end.

(** *** build_image *)

Definition build_image : M string :=
  head <- ask (fun t => getoutput w t "git rev-parse HEAD") ;;
  emit (EvGetOutput "git rev-parse HEAD") ;;;
  let git_sha := take_chars 8 (getenv_default w "GITHUB_SHA" head) in
  let image_tag := service_name self ++ ":" ++ git_sha in
  print ("🔨 Building image: " ++ image_tag) ;;;
  r <- _run_command ("docker build -t " ++ image_tag ++ " .") true ;;
  let '(rc, output) := r in
  if negb (rc =? 0) then
    raise (mkExn PlainException ("Docker build failed: " ++ output))
  else
    let registry := getenv_default w "REGISTRY_URL" "registry.company.com" in
    let full_tag := registry ++ "/" ++ image_tag in
    _run_command ("docker tag " ++ image_tag ++ " " ++ full_tag) true ;;;
    _run_command ("docker push " ++ full_tag) true ;;;
    print ("✅ Image built and pushed: " ++ full_tag) ;;;
    ret full_tag.

(** *** run_tests *)

Definition tests : list (string * string) :=
  [ ("Unit tests", "pytest tests/unit -v --cov=. --cov-report=xml");
    ("Integration tests", "pytest tests/integration -v");
    ("Linting",
     "flake8 . --count --select=E9,F63,F7,F82 --show-source --statistics");
    ("Type checking", "mypy . --ignore-missing-imports") ].

(** The [for] loop of [run_tests] with the code that follows it. *)
Fixpoint run_tests_loop (ts : list (string * string)) : M bool :=
  match ts with
  | [] => print "✅ All tests passed" ;;; ret true
  | (test_name, test_cmd) :: rest =>
      print ("  Running " ++ test_name ++ "...") ;;;
      r <- _run_command test_cmd false ;;
      let '(rc, output) := r in
      if negb (rc =? 0) then
        print ("❌ " ++ test_name ++ " failed:") ;;;
        print output ;;;
        ret false
      else
        print ("  ✓ " ++ test_name ++ " passed") ;;;
        run_tests_loop rest
  end.

Definition run_tests : M bool :=
  print "🧪 Running test suite..." ;;;
  run_tests_loop tests.

(** *** security_scan *)

Definition scan_cmd (image_tag : string) : string :=
  "trivy image --severity HIGH,CRITICAL --exit-code 1 " ++ image_tag.

Definition bypass_note : string :=
  "⚠️  Proceeding despite vulnerabilities in non-production environment".

Definition security_scan (image_tag : string) : M bool :=
  print ("🔍 Scanning image for vulnerabilities: " ++ image_tag) ;;;
  r <- _run_command (scan_cmd image_tag) false ;;
  let '(rc, output) := r in
  if negb (rc =? 0) then
    print "❌ Security vulnerabilities found:" ;;;
    print output ;;;
    if existsb (String.eqb (environment self)) ["dev"; "staging"] then
      print bypass_note ;;;
      ret true
    else ret false
  else
    print "✅ Security scan passed" ;;;
    ret true.

(** *** update_manifest *)

(** [Path(f"deploy/{self.environment}/values.yaml")], as the text that
    [str] and the f-strings give for it. *)
Definition manifest_path : string :=
  path_str ("deploy/" ++ environment self ++ "/values.yaml").

Definition git_commands (tag : string) : list string :=
  [ "git add " ++ manifest_path;
    "git commit -m 'Deploy " ++ service_name self ++ ":" ++ tag ++ " to "
      ++ environment self ++ "'";
    "git push origin main" ].

(** [for cmd in cmds: self._run_command(cmd)]: results are dropped. *)
Fixpoint run_all (cmds : list string) : M unit :=
  match cmds with
  | [] => ret tt
  | cmd :: rest => _run_command cmd true ;;; run_all rest
  end.

Definition update_manifest (image_tag : string) : M unit :=
  found <- ask (fun t => path_exists w t manifest_path) ;;
  emit (EvPathExists manifest_path found) ;;;
  if negb found then
    raise (mkExn FileNotFoundError ("Manifest not found: " ++ manifest_path))
  else
    print ("📝 Updating manifest: " ++ manifest_path) ;;;
    loaded <- ask (fun t => load_yaml w t manifest_path) ;;
    emit (EvReadYaml manifest_path) ;;;
    match loaded with
    | Malformed msg => raise (mkExn YAMLError msg)
    | Parsed values =>
        let tag := extract_tag image_tag in
        ts <- ask (now w) ;;
        match update_doc tag (isoformat w ts)
                (getenv_default w "GITHUB_ACTOR" "unknown") values with
        | inl e => raise e
        | inr values' =>
            emit (EvWriteYaml manifest_path values') ;;;
            run_all (git_commands tag) ;;;
            print "✅ Manifest updated and pushed"
        end
    end.

(** *** trigger_argocd_sync *)

Definition app_name : string := service_name self ++ "-" ++ environment self.

Definition sync_url (argocd_api : string) : string :=
  argocd_api ++ "/api/v1/applications/" ++ app_name ++ "/sync".

(** [requests.post(url, headers=..., json=body)] *)
Definition requests_post (url : string) (bearer : option string)
    (body : JsonBody) : M HttpResult :=
  res <- ask (fun t => http_post w t url bearer body) ;;
  emit (EvHttpPost url bearer body res) ;;;
  ret res.

Definition trigger_argocd_sync : M bool :=
  let argocd_api := getenv w "ARGOCD_API_URL" in
  let argocd_token := getenv w "ARGOCD_TOKEN" in
  if negb (truthy argocd_api) || negb (truthy argocd_token) then
    print "⚠️  ArgoCD credentials not configured, skipping sync trigger" ;;;
    ret true
  else
    let api := getenv_default w "ARGOCD_API_URL" "" in
    print ("🔄 Triggering ArgoCD sync for: " ++ app_name) ;;;
    response <- requests_post (sync_url api) argocd_token
                  (SyncBody false (dry_run self)) ;;
    match response with
    | Response code text =>
        if code =? 200 then
          print "✅ ArgoCD sync triggered successfully" ;;;
          ret true
        else
          print ("❌ ArgoCD sync failed: " ++ text) ;;;
          ret false
    | NetworkError e =>
        print ("❌ Failed to trigger ArgoCD sync: " ++ e) ;;;
        ret false
    end.

(** *** _verify_health *)

Definition service_url : string :=
  "https://" ++ service_name self ++ "." ++ environment self ++ ".company.com".

Definition requests_get (url : string) (timeout : Z) : M HttpResult :=
  res <- ask (fun t => http_get w t url) ;;
  emit (EvHttpGet url timeout res) ;;;
  ret res.

(** The [for attempt in range(max_retries)] loop: [Some b] when the body
    returned [b], [None] when the loop ran to its end. *)
Fixpoint health_loop (max_retries : Z) (attempts : list Z) : M (option bool) :=
  match attempts with
  | [] => ret None
  | attempt :: rest =>
      response <- requests_get (service_url ++ "/health") 10 ;;
      match response with
      | Response code _ =>
          if code =? 200 then
            print "✅ Health check passed" ;;;
            ret (Some true)
          else
            print ("⚠️  Health check returned " ++ str_of_Z code
                   ++ ", retrying...") ;;;
            (if attempt <? max_retries - 1 then emit (EvSleep 10) else ret tt) ;;;
            health_loop max_retries rest
      | NetworkError e =>
          print ("⚠️  Health check failed (attempt " ++ str_of_Z (attempt + 1)
                 ++ "/" ++ str_of_Z max_retries ++ "): " ++ e) ;;;
          (if attempt <? max_retries - 1 then emit (EvSleep 10) else ret tt) ;;;
          health_loop max_retries rest
      end
  end.

(** [range(n)] *)
Definition range (n : nat) : list Z := map Z.of_nat (seq 0 n).

Definition _verify_health : M bool :=
  if dry_run self then
    print "[DRY RUN] Would verify health" ;;;
    ret true
  else
    print ("🏥 Verifying service health: " ++ service_url ++ "/health") ;;;
    let max_retries := 5 in
    r <- health_loop max_retries (range 5) ;;
    match r with
    | Some b => ret b
    | None =>
        print "❌ Health check failed after maximum retries" ;;;
        ret false
    end.

(** *** wait_for_deployment *)

Definition rollout_status_cmd (timeout : Z) : string :=
  "kubectl rollout status deployment/" ++ service_name self ++ " "
  ++ "-n " ++ environment self ++ " --timeout=" ++ str_of_Z timeout ++ "s".

Definition wait_for_deployment (timeout : Z) : M bool :=
  print ("⏳ Waiting for " ++ service_name self ++ " deployment (timeout: "
         ++ str_of_Z timeout ++ "s)...") ;;;
  if dry_run self then
    print "[DRY RUN] Would wait for deployment" ;;;
    ret true
  else
    r <- _run_command (rollout_status_cmd timeout) false ;;
    let '(rc, output) := r in
    if negb (rc =? 0) then
      print ("❌ Deployment failed or timed out:" ++ nl ++ output) ;;;
      ret false
    else
      print "✅ Deployment completed successfully" ;;;
      _verify_health.

(** *** rollback *)

Definition rollback_cmd : string :=
  "kubectl rollout undo deployment/" ++ service_name self ++ " -n "
  ++ environment self.

Definition rollback : M bool :=
  print "🔙 Initiating rollback..." ;;;
  r <- _run_command rollback_cmd false ;;
  let '(rc, output) := r in
  if rc =? 0 then
    print "✅ Rollback completed successfully" ;;;
    ret true
  else
    print ("❌ Rollback failed: " ++ output) ;;;
    ret false.

(** *** send_notification *)

(** The clock counts whole seconds, so [f"{duration:.0f}s"] is the
    decimal text of the difference. *)
Definition slack_payload (success : bool) (message : string) (duration : Z)
  : JsonBody :=
  let color := if success then "good" else "danger" in
  let emoji := if success then "✅" else "❌" in
  SlackBody color
    (emoji ++ " Deployment " ++ (if success then "Succeeded" else "Failed"))
    (service_name self) (environment self)
    (str_of_Z duration ++ "s") message.

Definition send_notification (success : bool) (message : string) : M unit :=
  match getenv w "SLACK_WEBHOOK_URL" with
  | None => ret tt
  | Some webhook_url =>
      if (webhook_url =? "")%string then ret tt
      else
        t_now <- ask (now w) ;;
        let duration := t_now - deployment_start self in
        res <- requests_post webhook_url None
                 (slack_payload success message duration) ;;
        match res with
        | Response _ _ => ret tt
        | NetworkError e => print ("⚠️  Failed to send notification: " ++ e)
        end
  end.

(** *** deploy *)

Definition rule60 : string := repeat_string "=" 60.

Definition deploy_body : M bool :=
  ok <- run_tests ;;
  if negb ok then
    send_notification false "Tests failed" ;;;
    ret false
  else
    image_tag <- build_image ;;
    ok <- security_scan image_tag ;;
    if negb ok then
      send_notification false "Security scan failed" ;;;
      ret false
    else
      update_manifest image_tag ;;;
      ok <- trigger_argocd_sync ;;
      if negb ok then
        send_notification false "Failed to trigger ArgoCD sync" ;;;
        ret false
      else
        ok <- wait_for_deployment 600 ;;
        if negb ok then
          print "⚠️  Deployment verification failed, initiating rollback..." ;;;
          rollback ;;;
          send_notification false "Deployment failed, rolled back" ;;;
          ret false
        else
          t_now <- ask (now w) ;;
          let duration := t_now - deployment_start self in
          print (nl ++ rule60) ;;;
          print ("✅ Successfully deployed " ++ image_tag ++ " to "
                 ++ environment self) ;;;
          print ("⏱️  Total deployment time: " ++ str_of_Z duration
                 ++ " seconds") ;;;
          print (rule60 ++ nl) ;;;
          send_notification true
            ("Deployed " ++ image_tag ++ " in " ++ str_of_Z duration ++ "s") ;;;
          ret true.

Definition deploy : M bool :=
  print (nl ++ rule60) ;;;
  print ("🚀 Starting deployment for " ++ service_name self ++ " to "
         ++ environment self) ;;;
  print (rule60 ++ nl) ;;;
  try_except deploy_body
    (fun e =>
       print (nl ++ "❌ Deployment failed with error: " ++ exn_msg e) ;;;
       send_notification false ("Deployment error: " ++ exn_msg e) ;;;
       ret false).

End Stages.

(** ** Construction and entry point *)

Definition _load_config (w : World) : M yaml :=
  found <- ask (fun t => path_exists w t "catalog-info.yaml") ;;
  emit (EvPathExists "catalog-info.yaml" found) ;;;
  if negb found then
    raise (mkExn FileNotFoundError "catalog-info.yaml not found")
  else
    loaded <- ask (fun t => load_yaml w t "catalog-info.yaml") ;;
    emit (EvReadYaml "catalog-info.yaml") ;;;
    match loaded with
    | Malformed msg => raise (mkExn YAMLError msg)
    | Parsed doc => ret doc
    end.

(** [DeploymentPipeline.__init__] *)
Definition init (w : World) (service env : string) (dry : bool) : M Pipeline :=
  cfg <- _load_config w ;;
  start <- ask (now w) ;;
  ret (mkPipeline service env dry cfg start).

(** How the process ends: [sys.exit(status)], or an exception nobody
    caught, which the interpreter reports with a traceback and status 1. *)
Inductive ProcessEnd :=
| Exited (status : Z)
| Traceback (e : Exn).

Definition exit_status (p : ProcessEnd) : Z :=
  match p with
  | Exited status => status
  | Traceback _ => 1
  end.

(** [main] from the line after [parser.parse_args()] on: [service] is
    [args.service], [env] is [args.env], [dry] is [args.dry_run].  The whole
    of [main], with the command line, is [main_cli] below. *)
Definition main (w : World) (service : option string) (env : string)
    (dry : bool) (t : Trace) : ProcessEnd * Trace :=
  match service with
  | None | Some "" =>
      (Exited 1,
       (t ++ [EvPrint "❌ Error: SERVICE_NAME must be provided via --service or environment variable"])%list)
  | Some svc =>
      match init w svc env dry t with
      | (Raise e, t1) => (Traceback e, t1)
      | (Ok pipeline, t1) =>
          match deploy w pipeline t1 with
          | (Raise e, t2) => (Traceback e, t2)
          | (Ok success, t2) => (Exited (if success then 0 else 1), t2)
          end
      end
  end.

(** What [parser.parse_args()] finds on the command line, read from left
    to right: a request for help ([-h], [--help]) before anything it
    rejects, with the help message it prints (less the final newline);
    something it rejects on its own (an unknown option, an option without
    its value, a positional argument); or the options given, with the value
    of [--service] and of [--env] where they occur.  Whether the value of
    [--env] is one of the [choices] is decided in [main_cli]. *)
Inductive Cli :=
| CliHelp (text : string)
| CliRejected
| CliOptions (service env : option string) (dry_run : bool).

(** [choices=["dev", "staging", "production"]] *)
Definition env_choices : list string := ["dev"; "staging"; "production"].

(** [args.service]: the option, else [os.getenv("SERVICE_NAME")]. *)
Definition cli_service (w : World) (service : option string) : option string :=
  match service with
  | Some v => Some v
  | None => getenv w "SERVICE_NAME"
  end.

(** [args.env]: the option, else [os.getenv("DEPLOY_ENV", "staging")].
    [argparse] checks [choices] for values of the command line only, not
    for the default. *)
Definition cli_env (w : World) (env : option string) : string :=
  match env with
  | Some v => v
  | None => getenv_default w "DEPLOY_ENV" "staging"
  end.

(** [main], from its first line.  [argparse] ends the process itself: with
    status 0 after printing the help, with status 2 after writing the usage
    and the error to standard error, which the trace does not record (like
    the traceback of an uncaught exception). *)
Definition main_cli (w : World) (cli : Cli) (t : Trace) : ProcessEnd * Trace :=
  match cli with
  | CliHelp text => (Exited 0, (t ++ [EvPrint text])%list)
  | CliRejected => (Exited 2, t)
  | CliOptions service env dry =>
      if match env with
         | Some v => existsb (String.eqb v) env_choices
         | None => true
         end
      then main w (cli_service w service) (cli_env w env) dry t
      else (Exited 2, t)
  end.

(** ** Sample worlds, used to run the model on concrete inputs *)

Module Samples.

Definition manifest : yaml :=
  YMap [ ("replicaCount", YInt 2);
         ("image", YMap [ ("repository", YStr "registry.company.com/user-api");
                          ("tag", YStr "0000000");
                          ("pullPolicy", YStr "IfNotPresent") ]);
         ("service", YMap [ ("port", YInt 8080) ]) ].

(** Every command exits 0, every file is there, every request gets 200,
    no environment variable is set. *)
Definition happy : World := {|
  getenv := fun _ => None;
  shell := fun _ _ => Completed (mkShell 0 "ok" "");
  getoutput := fun _ _ => "0123456789abcdef0123456789abcdef01234567";
  path_exists := fun _ _ => true;
  load_yaml := fun _ _ => Parsed manifest;
  http_get := fun _ _ => Response 200 "OK";
  http_post := fun _ _ _ _ => Response 200 "ok";
  now := fun t => Z.of_nat (length t);
  isoformat := fun z => "T+" ++ str_of_Z z
|}.

Definition with_env (vars : list (string * string)) (w : World) : World := {|
  getenv := fun name =>
    match find (fun kv => (fst kv =? name)%string) vars with
    | Some kv => Some (snd kv)
    | None => getenv w name
    end;
  shell := shell w; getoutput := getoutput w; path_exists := path_exists w;
  load_yaml := load_yaml w; http_get := http_get w; http_post := http_post w;
  now := now w; isoformat := isoformat w
|}.

(** Commands starting with [pre] exit with [rc] and the given output. *)
Definition failing (pre : string) (rc : Z) (out err : string) (w : World)
  : World := {|
  getenv := getenv w;
  shell := fun t cmd =>
    if prefix pre cmd then Completed (mkShell rc out err) else shell w t cmd;
  getoutput := getoutput w; path_exists := path_exists w;
  load_yaml := load_yaml w; http_get := http_get w; http_post := http_post w;
  now := now w; isoformat := isoformat w
|}.

(** Running a command that starts with [pre] raises [e]. *)
Definition crashing (pre : string) (e : Exn) (w : World) : World := {|
  getenv := getenv w;
  shell := fun t cmd => if prefix pre cmd then Crashed e else shell w t cmd;
  getoutput := getoutput w; path_exists := path_exists w;
  load_yaml := load_yaml w; http_get := http_get w; http_post := http_post w;
  now := now w; isoformat := isoformat w
|}.

Definition with_files (ex : string -> bool) (ld : string -> LoadResult)
    (w : World) : World := {|
  getenv := getenv w; shell := shell w; getoutput := getoutput w;
  path_exists := fun _ => ex; load_yaml := fun _ => ld;
  http_get := http_get w; http_post := http_post w;
  now := now w; isoformat := isoformat w
|}.

Definition with_http (g : Trace -> string -> HttpResult)
    (p : Trace -> string -> option string -> JsonBody -> HttpResult)
    (w : World) : World := {|
  getenv := getenv w; shell := shell w; getoutput := getoutput w;
  path_exists := path_exists w; load_yaml := load_yaml w;
  http_get := g; http_post := p;
  now := now w; isoformat := isoformat w
|}.

Definition pipeline (env : string) (dry : bool) : Pipeline :=
  mkPipeline "user-api" env dry (YMap []) 0.

End Samples.

(** ** Observations on traces and runs *)

(** Exit status the scan stage reads from its command, the banner having
    been printed; none when running the command raised. *)
Definition scan_returncode (w : World) (self : Pipeline) (image_tag : string)
    (t : Trace) : option Z :=
  match fst (_run_command w self (scan_cmd image_tag) false
               (t ++ [EvPrint ("🔍 Scanning image for vulnerabilities: "
                               ++ image_tag)])%list) with
  | Ok (rc, _) => Some rc
  | Raise _ => None
  end.

(** Responses received by the GET requests of a trace, in order. *)
Definition gets (d : Trace) : list HttpResult :=
  flat_map (fun e => match e with EvHttpGet _ _ r => [r] | _ => [] end) d.

(** Delays slept in a trace, in order. *)
Definition sleeps (d : Trace) : list Z :=
  flat_map (fun e => match e with EvSleep n => [n] | _ => [] end) d.

Definition healthy (r : HttpResult) : bool :=
  match r with
  | Response code _ => code =? 200
  | NetworkError _ => false
  end.

Definition unhealthy (r : HttpResult) : bool := negb (healthy r).

Definition is_http (e : Event) : bool :=
  match e with
  | EvHttpGet _ _ _ | EvHttpPost _ _ _ _ => true
  | _ => false
  end.

(** The HTTP requests of a trace, in order. *)
Definition http_events (d : Trace) : Trace := filter is_http d.

(** The polling pattern of a trace: [true] for a GET, [false] for a sleep. *)
Definition poll_shape (d : Trace) : list bool :=
  flat_map (fun e => match e with
                     | EvHttpGet _ _ _ => [true]
                     | EvSleep _ => [false]
                     | _ => []
                     end) d.

(** The line [_verify_health] prints after an unhealthy attempt. *)
Definition retry_line (max_retries attempt : Z) (res : HttpResult) : string :=
  match res with
  | Response code _ =>
      "⚠️  Health check returned " ++ str_of_Z code ++ ", retrying..."
  | NetworkError e =>
      "⚠️  Health check failed (attempt " ++ str_of_Z (attempt + 1)
      ++ "/" ++ str_of_Z max_retries ++ "): " ++ e
  end.

(** Reading a manifest document. *)
Definition field (k : string) (doc : yaml) : option yaml :=
  match doc with
  | YMap top => dict_get k top
  | _ => None
  end.

Definition subfield (k1 k2 : string) (doc : yaml) : option yaml :=
  match field k1 doc with
  | Some v => field k2 v
  | None => None
  end.





(** The three lines [deploy] prints before its first stage. *)
Definition banner (self : Pipeline) : Trace :=
  [ EvPrint (nl ++ rule60);
    EvPrint ("🚀 Starting deployment for " ++ service_name self ++ " to "
             ++ environment self);
    EvPrint (rule60 ++ nl) ].

(** Is the event an execution of the rollback command, completed or
    not? *)
Definition is_undo (self : Pipeline) (e : Event) : bool :=
  match e with
  | EvExec cmd _ _ | EvExecRaised cmd _ _ =>
      (cmd =? rollback_cmd self)%string
  | _ => false
  end.

(** Number of rollback executions in a trace. *)
Definition count_undo (self : Pipeline) (d : Trace) : nat :=
  length (filter (is_undo self) d).

(** Events of the stages that precede the rollback: commands run only in
    real mode and are never the rollback command; only sync bodies are
    posted. *)
Definition stage_event (self : Pipeline) (e : Event) : Prop :=
  match e with
  | EvExec cmd _ _ | EvExecRaised cmd _ _ =>
      dry_run self = false /\ cmd <> rollback_cmd self
  | EvHttpPost _ _ (SlackBody _ _ _ _ _ _) _ => False
  | EvHttpPost _ _ (SyncBody _ dr) _ => dr = dry_run self
  | EvHttpGet _ _ _ | EvSleep _ => dry_run self = false
  | _ => True
  end.

(** Events of [send_notification]: one post of a Slack body whose status
    field is [message], and prints. *)
Definition notif_event (message : string) (e : Event) : Prop :=
  match e with
  | EvPrint _ => True
  | EvHttpPost _ None (SlackBody _ _ _ _ _ status) _ => status = message
  | _ => False
  end.

(** Events of a dry run: no command execution, no GET, no sleep, and a
    sync request only with [dryRun] set. *)
Definition dry_event (e : Event) : Prop :=
  match e with
  | EvExec _ _ _ | EvExecRaised _ _ _ | EvHttpGet _ _ _ | EvSleep _ => False
  | EvHttpPost _ _ (SyncBody _ dr) _ => dr = true
  | _ => True
  end.

(** The world [w] with another notification channel: [hook] is the value
    of [SLACK_WEBHOOK_URL] and [deliver] answers the posts of Slack
    bodies. *)
Definition set_notification (hook : option string)
    (deliver : Trace -> string -> JsonBody -> HttpResult) (w : World)
  : World := {|
  getenv := fun name =>
    if (name =? "SLACK_WEBHOOK_URL")%string then hook else getenv w name;
  shell := shell w;
  getoutput := getoutput w;
  path_exists := path_exists w;
  load_yaml := load_yaml w;
  http_get := http_get w;
  http_post := fun t url bearer body =>
    match body with
    | SlackBody _ _ _ _ _ _ => deliver t url body
    | SyncBody _ _ => http_post w t url bearer body
    end;
  now := now w;
  isoformat := isoformat w
|}.

(** [Emits P m]: whatever the trace so far, [m] only appends events, and
    every event it appends satisfies [P]. *)
Definition Emits {A} (P : Event -> Prop) (m : M A) : Prop :=
  forall t, exists d, snd (m t) = (t ++ d)%list /\ Forall P d.

(** ** Further observations on traces *)

(** Commands executed in a trace, with their exit status, in order. *)
Definition execs (d : Trace) : list (string * Z) :=
  flat_map (fun e => match e with
                     | EvExec cmd _ rc => [(cmd, rc)]
                     | _ => []
                     end) d.

(** Commands whose execution raised, with the exception, in order. *)
Definition raised (d : Trace) : list (string * Exn) :=
  flat_map (fun e => match e with
                     | EvExecRaised cmd _ ex => [(cmd, ex)]
                     | _ => []
                     end) d.

(** Files written in a trace, with the document written, in order. *)
Definition writes (d : Trace) : list (string * yaml) :=
  flat_map (fun e => match e with
                     | EvWriteYaml path doc => [(path, doc)]
                     | _ => []
                     end) d.

(** Lines printed in a trace, in order. *)
Definition printed (d : Trace) : list string :=
  flat_map (fun e => match e with
                     | EvPrint line => [line]
                     | _ => []
                     end) d.

(** Slack bodies posted in a trace, in order. *)
Definition slack_bodies (d : Trace) : list JsonBody :=
  flat_map (fun e => match e with
                     | EvHttpPost _ _ (SlackBody c ti s en du st) _ =>
                         [SlackBody c ti s en du st]
                     | _ => []
                     end) d.

(** The event posts no Slack body. *)
Definition no_slack (e : Event) : Prop :=
  match e with
  | EvHttpPost _ _ (SlackBody _ _ _ _ _ _) _ => False
  | _ => True
  end.

(** [Ends Q m]: whatever the trace so far, [m] only appends events, and its
    result together with what it appended satisfies [Q]. *)
Definition Ends {A} (Q : Res A -> Trace -> Prop) (m : M A) : Prop :=
  forall t, exists d, snd (m t) = (t ++ d)%list /\ Q (fst (m t)) d.

(** A run that notified once: with a webhook configured it posted exactly
    one Slack body, built for the result it returns; without one, or when
    it raises, it posted none. *)
Definition notified_once (w : World) (self : Pipeline) (r : Res bool)
    (d : Trace) : Prop :=
  match r with
  | Ok b =>
      exists message duration,
        slack_bodies d =
          if truthy (getenv w "SLACK_WEBHOOK_URL")
          then [slack_payload self b message duration]
          else []
  | Raise _ => slack_bodies d = []
  end.

(** The same, for a run that moreover does not raise. *)
Definition returned_notified_once (w : World) (self : Pipeline)
    (r : Res bool) (d : Trace) : Prop :=
  match r with
  | Ok _ => notified_once w self r d
  | Raise _ => False
  end.

(** Rollbacks of a run against its result: none when it returns true, at
    most one otherwise. *)
Definition undo_bound (self : Pipeline) (r : Res bool) (d : Trace) : Prop :=
  match r with
  | Ok true => count_undo self d = 0%nat
  | _ => (count_undo self d <= 1)%nat
  end.

(** The event neither writes a manifest nor asks for a sync. *)
Definition not_deploying (e : Event) : Prop :=
  match e with
  | EvWriteYaml _ _ => False
  | EvHttpPost _ _ (SyncBody _ _) _ => False
  | _ => True
  end.

(** ** The example service (src/examples/simple-api/main.py)

    The handlers run one at a time on the event loop and never await, so
    each is a function from the service state to a result and a new state.
    The state is what the module keeps between requests: the labelled
    request counter and the log.  The timestamp a handler reads from the
    clock is an argument. *)

Module ExampleApi.

(** [REQUEST_COUNT]: one count per (method, endpoint, status). *)
Definition Counter := string -> string -> Z -> nat.

(** [REQUEST_COUNT.labels(method=m, endpoint=e, status=s).inc()] *)
Definition inc (m e : string) (s : Z) (c : Counter) : Counter :=
  fun m' e' s' =>
    if (m' =? m)%string && (e' =? e)%string && (s' =? s)
    then S (c m' e' s') else c m' e' s'.

Record State := mkState {
  request_count : Counter;
  log : list string
}.

Definition initial : State := mkState (fun _ _ _ => O) [].

(** A handler returns a JSON object or raises [HTTPException]. *)
Inductive Reply :=
| Json (body : list (string * yaml))
| HTTPException (status_code : Z) (detail : string).

Definition root (ts : string) (st : State) : Reply * State :=
  (Json [ ("message", YStr "Welcome to the IDP-deployed API");
          ("timestamp", YStr ts) ],
   mkState (inc "GET" "/" 200 (request_count st)) (log st)).

Definition health_check (ts : string) (st : State) : Reply * State :=
  (Json [ ("status", YStr "healthy"); ("timestamp", YStr ts);
          ("service", YStr "example-api") ], st).

Definition readiness_check (ts : string) (st : State) : Reply * State :=
  (Json [ ("status", YStr "ready"); ("timestamp", YStr ts) ], st).

Definition get_item (ts : string) (item_id : Z) (st : State)
  : Reply * State :=
  let c1 := inc "GET" "/items" 200 (request_count st) in
  if item_id <? 0 then
    (HTTPException 400 "Item ID must be positive",
     mkState (inc "GET" "/items" 400 c1) (log st))
  else
    (Json [ ("item_id", YInt item_id);
            ("name", YStr ("Item " ++ str_of_Z item_id));
            ("timestamp", YStr ts) ],
     mkState c1 (log st ++ [("Fetching item " ++ str_of_Z item_id)%string])%list).

Definition create_item (ts : string) (name : string)
    (description : option string) (st : State) : Reply * State :=
  (Json [ ("id", YInt 123);
          ("name", YStr name);
          ("description", match description with
                          | Some d => YStr d
                          | None => YNull
                          end);
          ("created_at", YStr ts) ],
   mkState (inc "POST" "/items" 201 (request_count st))
           (log st ++ [("Creating item: " ++ name)%string])%list).

(** A request to one of the routes the module declares. *)
Inductive Request :=
| GetRoot
| GetHealth
| GetReady
| GetItem (item_id : Z)
| PostItem (name : string) (description : option string).

(** The route table of the decorators. *)
Definition serve (ts : string) (rq : Request) (st : State) : Reply * State :=
  match rq with
  | GetRoot => root ts st
  | GetHealth => health_check ts st
  | GetReady => readiness_check ts st
  | GetItem item_id => get_item ts item_id st
  | PostItem name description => create_item ts name description st
  end.

(** Requests served one after the other; [clock n] is the timestamp the
    [n]-th request reads. *)
Fixpoint serve_all (clock : nat -> string) (n : nat) (rqs : list Request)
    (st : State) : State :=
  match rqs with
  | [] => st
  | rq :: rest =>
      serve_all clock (S n) rest (snd (serve (clock n) rq st))
  end.

Definition is_get_item (rq : Request) : bool :=
  match rq with GetItem _ => true | _ => false end.

Definition is_bad_item (rq : Request) : bool :=
  match rq with GetItem item_id => item_id <? 0 | _ => false end.

End ExampleApi.

(** The event writes no file. *)
Definition no_write (e : Event) : Prop :=
  match e with
  | EvWriteYaml _ _ => False
  | _ => True
  end.

(** At most one file was written, and it is the manifest of the
    pipeline's environment. *)
Definition manifest_written_once (self : Pipeline) (d : Trace) : Prop :=
  writes d = [] \/ exists doc, writes d = [(manifest_path self, doc)].

(** Every GET of the event goes to the health endpoint of the service,
    with a timeout of 10 seconds; the event is no command, no write and no
    post. *)
Definition health_poll_event (self : Pipeline) (e : Event) : Prop :=
  match e with
  | EvHttpGet url timeout _ =>
      url = "https://" ++ service_name self ++ "." ++ environment self
            ++ ".company.com/health" /\ timeout = 10
  | EvPrint _ | EvSleep _ => True
  | _ => False
  end.

(** * Properties *)

(** ** What a computation adds to the trace *)

Section EmitsRules.

Context {A B : Type} (P : Event -> Prop).

Lemma Emits_ret (a : A) : Emits P (ret a).
Proof. intro t; exists []; simpl; rewrite app_nil_r; auto. Qed.

Lemma Emits_raise (e : Exn) : Emits P (@raise A e).
Proof. intro t; exists []; simpl; rewrite app_nil_r; auto. Qed.

Lemma Emits_ask (f : Trace -> A) : Emits P (ask f).
Proof. intro t; exists []; simpl; rewrite app_nil_r; auto. Qed.

Lemma Emits_emit (e : Event) : P e -> Emits P (emit e).
Proof. intros He t; exists [e]; simpl; auto. Qed.

Lemma Emits_bind (m : M A) (k : A -> M B) :
  Emits P m -> (forall a, Emits P (k a)) -> Emits P (bind m k).
Proof.
  intros Hm Hk t. unfold bind.
  destruct (Hm t) as [d [Hd HP]].
  destruct (m t) as [[a|e] t']; simpl in Hd; subst t'.
  - destruct (Hk a (t ++ d)%list) as [d' [Hd' HP']].
    exists (d ++ d')%list. rewrite Hd', app_assoc. split; auto.
    apply Forall_app; auto.
  - exists d; auto.
Qed.

Lemma Emits_try (m : M A) (h : Exn -> M A) :
  Emits P m -> (forall e, Emits P (h e)) -> Emits P (try_except m h).
Proof.
  intros Hm Hh t. unfold try_except.
  destruct (Hm t) as [d [Hd HP]].
  destruct (m t) as [[a|e] t']; simpl in Hd; subst t'.
  - exists d; auto.
  - destruct (Hh e (t ++ d)%list) as [d' [Hd' HP']].
    exists (d ++ d')%list. rewrite Hd', app_assoc. split; auto.
    apply Forall_app; auto.
Qed.

End EmitsRules.

Lemma Emits_weaken {A} (P Q : Event -> Prop) (m : M A) :
  (forall e, P e -> Q e) -> Emits P m -> Emits Q m.
Proof.
  intros HPQ Hm t. destruct (Hm t) as [d [Hd HP]].
  exists d; split; auto. eapply Forall_impl; eauto.
Qed.

(** One syntax-directed step of an [Emits] proof. *)
Ltac emits_step :=
  lazymatch goal with
  | |- Emits _ (bind _ _) => apply Emits_bind; [| intro]
  | |- Emits _ (ret _) => apply Emits_ret
  | |- Emits _ (raise _) => apply Emits_raise
  | |- Emits _ (ask _) => apply Emits_ask
  | |- Emits _ (print _) => apply Emits_emit
  | |- Emits _ (emit _) => apply Emits_emit
  | |- Emits _ (try_except _ _) => apply Emits_try; [| intro]
  | |- Emits _ (let '(_, _) := ?x in _) => destruct x
  | |- Emits _ (match ?x with _ => _ end) => destruct x eqn:?
  end.

Ltac emits := repeat emits_step.

(** ** The command runner *)

Section Runner.

Variables (w : World) (self : Pipeline).

Lemma run_command_completed (cmd : string) (check : bool) (t : Trace)
    (r : ShellResult) :
  dry_run self = false ->
  shell w t cmd = Completed r ->
  _run_command w self cmd check t =
    (Ok (returncode r,
         if check && negb (returncode r =? 0) then stderr r else stdout r),
     (t ++ [EvExec cmd check (returncode r)])%list).
Proof.
  intros Hreal Hsh. unfold _run_command. rewrite Hreal.
  cbv [bind emit ask ret]. rewrite Hsh.
  destruct (check && negb (returncode r =? 0)); reflexivity.
Qed.

Lemma run_command_crashed (cmd : string) (check : bool) (t : Trace)
    (e : Exn) :
  dry_run self = false ->
  shell w t cmd = Crashed e ->
  _run_command w self cmd check t =
    (Raise e, (t ++ [EvExecRaised cmd check e])%list).
Proof.
  intros Hreal Hsh. unfold _run_command. rewrite Hreal.
  cbv [bind emit ask ret raise]. rewrite Hsh. reflexivity.
Qed.

Lemma run_command_dry (cmd : string) (check : bool) (t : Trace) :
  dry_run self = true ->
  _run_command w self cmd check t =
    (Ok (0, "dry-run-output"),
     (t ++ [EvPrint ("[DRY RUN] Would execute: " ++ cmd)])%list).
Proof. intros Hdry. unfold _run_command. rewrite Hdry. reflexivity. Qed.

End Runner.

(** ** SecurityScan *)

(** C3. Whenever the scan command reports a finding (it completes with a
    non-zero exit status): in "production" the stage returns false; in
    "staging" and in "dev" it returns true and the last thing it prints is
    the bypass note.  When the scan reports nothing (exit status 0) the
    stage returns true in every environment. *)
Theorem security_scan_policy (w : World) (self : Pipeline)
    (image_tag : string) (t : Trace) :
  (forall rc,
     scan_returncode w self image_tag t = Some rc -> rc <> 0 ->
     environment self = "production" ->
     fst (security_scan w self image_tag t) = Ok false) /\
  (forall rc,
     scan_returncode w self image_tag t = Some rc -> rc <> 0 ->
     environment self = "staging" \/ environment self = "dev" ->
     fst (security_scan w self image_tag t) = Ok true /\
     exists d, snd (security_scan w self image_tag t)
               = (t ++ d ++ [EvPrint bypass_note])%list) /\
  (scan_returncode w self image_tag t = Some 0 ->
   fst (security_scan w self image_tag t) = Ok true).
Proof.
  unfold scan_returncode, security_scan. cbv [bind print emit ret].
  set (t1 := (t ++ [EvPrint _])%list).
  destruct (_run_command w self (scan_cmd image_tag) false t1)
    as [[[rc0 out]|e] t2] eqn:Hrun; cbn [fst];
    [|repeat split; intros; discriminate].
  assert (Hpre : exists d0, t2 = (t1 ++ [d0])%list).
  { destruct (dry_run self) eqn:Hdry.
    - rewrite (run_command_dry w self _ _ _ Hdry) in Hrun.
      injection Hrun as _ _ <-. eexists; reflexivity.
    - destruct (shell w t1 (scan_cmd image_tag)) as [r|e] eqn:Hsh.
      + rewrite (run_command_completed w self _ _ _ _ Hdry Hsh) in Hrun.
        injection Hrun as _ _ <-. eexists; reflexivity.
      + rewrite (run_command_crashed w self _ _ _ _ Hdry Hsh) in Hrun.
        discriminate. }
  destruct Hpre as [d0 ->].
  destruct (rc0 =? 0) eqn:Hrc; cbn [negb]; cbv beta iota; cbn [fst snd].
  - apply Z.eqb_eq in Hrc. subst rc0.
    split; [|split]; [intros rc H; injection H as <-; congruence ..|].
    reflexivity.
  - apply Z.eqb_neq in Hrc.
    split; [|split];
      [intros rc _ _ Henv | intros rc _ _ Henv
      | intros H; injection H as ->; contradiction].
    + rewrite Henv. reflexivity.
    + destruct Henv as [Henv|Henv]; rewrite Henv;
        (split; [reflexivity|]); cbv beta iota;
        cbn [existsb String.eqb Ascii.eqb Bool.eqb orb fst snd];
        cbv beta iota; cbn [fst snd]; subst t1;
        rewrite <- !app_assoc; cbn [app];
        eexists [_; _; _; _]; reflexivity.
Qed.

(** A production scan that finds something, run on a concrete world. *)
Lemma security_scan_policy_witness :
  (scan_returncode (Samples.failing "trivy" 1 "CVE-0" "" Samples.happy)
     (Samples.pipeline "production" false) "user-api:01234567" [] = Some 1 /\
   1 <> 0 /\
   environment (Samples.pipeline "production" false) = "production") /\
  fst (security_scan (Samples.failing "trivy" 1 "CVE-0" "" Samples.happy)
         (Samples.pipeline "production" false) "user-api:01234567" [])
  = Ok false.
Proof.
  split.
  - split; [vm_compute; reflexivity | split; [discriminate | reflexivity]].
  - apply (proj1 (security_scan_policy
                    (Samples.failing "trivy" 1 "CVE-0" "" Samples.happy)
                    (Samples.pipeline "production" false)
                    "user-api:01234567" []) 1).
    + vm_compute; reflexivity.
    + discriminate.
    + reflexivity.
Defined.

(** ** SyncTrigger *)

(** C8. When the sync-controller endpoint or the token is missing (unset or
    empty) the stage returns true and issues no HTTP request.  Otherwise it
    issues exactly one POST, to the sync URL of the application
    [service-environment], with the token and the body
    [{prune: false, dryRun: dry_run}]; a response whose status is not 2xx,
    and a transport error, make the stage return false, and status 200
    makes it return true. *)
Theorem sync_trigger_spec (w : World) (self : Pipeline) (t : Trace) :
  (truthy (getenv w "ARGOCD_API_URL") = false \/
   truthy (getenv w "ARGOCD_TOKEN") = false ->
   fst (trigger_argocd_sync w self t) = Ok true /\
   exists d, snd (trigger_argocd_sync w self t) = (t ++ d)%list /\
             http_events d = []) /\
  (forall api token,
     getenv w "ARGOCD_API_URL" = Some api -> api <> "" ->
     getenv w "ARGOCD_TOKEN" = Some token -> token <> "" ->
     exists d res,
       snd (trigger_argocd_sync w self t) = (t ++ d)%list /\
       http_events d =
         [EvHttpPost (api ++ "/api/v1/applications/"
                          ++ (service_name self ++ "-" ++ environment self)
                          ++ "/sync")
                     (Some token) (SyncBody false (dry_run self)) res] /\
       (forall code text, res = Response code text ->
          ~ (200 <= code < 300) ->
          fst (trigger_argocd_sync w self t) = Ok false) /\
       (forall msg, res = NetworkError msg ->
          fst (trigger_argocd_sync w self t) = Ok false) /\
       (forall text, res = Response 200 text ->
          fst (trigger_argocd_sync w self t) = Ok true)).
Proof.
  unfold trigger_argocd_sync, requests_post, sync_url, app_name,
    getenv_default.
  cbv [bind print emit ret ask].
  split.
  - intros Habs.
    assert (E : negb (truthy (getenv w "ARGOCD_API_URL"))
                || negb (truthy (getenv w "ARGOCD_TOKEN")) = true)
      by (destruct Habs as [H|H]; rewrite H; cbn [negb orb];
          auto using orb_true_r).
    rewrite E. cbn [fst snd]. split; [reflexivity|].
    eexists [_]. split; reflexivity.
  - intros api token Hapi Hapi' Htok Htok'.
    rewrite Hapi, Htok. cbn [truthy].
    apply String.eqb_neq in Hapi', Htok'. rewrite Hapi', Htok'.
    cbn [negb orb]. cbv beta iota.
    set (res := http_post w _ _ _ _).
    destruct res as [code text|msg] eqn:Hres.
    + destruct (code =? 200) eqn:Hc; cbn [fst snd];
        rewrite <- !app_assoc; cbn [app];
        eexists [_; _; _], _; (split; [reflexivity|]);
        (split; [reflexivity|]); repeat split; intros; try congruence.
      * apply Z.eqb_eq in Hc.
        match goal with H : Response _ _ = Response _ _ |- _ =>
          injection H as -> -> end. lia.
      * match goal with H : Response _ _ = Response _ _ |- _ =>
          injection H as -> -> end. discriminate.
    + cbn [fst snd]. rewrite <- !app_assoc; cbn [app].
      eexists [_; _; _], _; (split; [reflexivity|]);
        (split; [reflexivity|]); repeat split; intros; congruence.
Qed.

(** A configured sync whose controller answers 503. *)
Lemma sync_trigger_spec_witness :
  exists d res,
    snd (trigger_argocd_sync
           (Samples.with_http (fun _ _ => Response 200 "OK")
              (fun _ _ _ _ => Response 503 "unavailable")
              (Samples.with_env [("ARGOCD_API_URL", "https://argo");
                                 ("ARGOCD_TOKEN", "s3cr3t")] Samples.happy))
           (Samples.pipeline "staging" false) []) = ([] ++ d)%list /\
    http_events d =
      [EvHttpPost "https://argo/api/v1/applications/user-api-staging/sync"
         (Some "s3cr3t") (SyncBody false false) res] /\
    res = Response 503 "unavailable" /\
    fst (trigger_argocd_sync
           (Samples.with_http (fun _ _ => Response 200 "OK")
              (fun _ _ _ _ => Response 503 "unavailable")
              (Samples.with_env [("ARGOCD_API_URL", "https://argo");
                                 ("ARGOCD_TOKEN", "s3cr3t")] Samples.happy))
           (Samples.pipeline "staging" false) []) = Ok false.
Proof.
  destruct (proj2 (sync_trigger_spec
      (Samples.with_http (fun _ _ => Response 200 "OK")
         (fun _ _ _ _ => Response 503 "unavailable")
         (Samples.with_env [("ARGOCD_API_URL", "https://argo");
                            ("ARGOCD_TOKEN", "s3cr3t")] Samples.happy))
      (Samples.pipeline "staging" false) [])
      "https://argo" "s3cr3t" eq_refl ltac:(discriminate) eq_refl
      ltac:(discriminate)) as [d [res [Hd [Hev [Hbad _]]]]].
  exists d, res. split; [exact Hd|]. split; [exact Hev|].
  assert (Hres : res = Response 503 "unavailable").
  { vm_compute in Hd. subst d. vm_compute in Hev.
    injection Hev as Hev. symmetry; exact Hev. }
  split; [exact Hres|].
  apply (Hbad 503 "unavailable" Hres). lia.
Defined.

(** ** HealthVerify *)

Lemma healthy_not_all_unhealthy (l : list HttpResult) :
  existsb healthy l = true -> forallb unhealthy l = true -> False.
Proof.
  induction l as [|r l IH]; cbn [existsb forallb]; [discriminate|].
  unfold unhealthy at 1. intros He Hf.
  apply andb_true_iff in Hf as [Hr Hl].
  apply orb_true_iff in He as [He|He]; [rewrite He in Hr; discriminate|].
  auto.
Qed.

(** One iteration of the polling loop. *)
Lemma health_loop_cons (w : World) (self : Pipeline) (mr a : Z)
    (rest : list Z) (t : Trace) :
  health_loop w self mr (a :: rest) t =
  let res := http_get w t (service_url self ++ "/health") in
  let get := EvHttpGet (service_url self ++ "/health") 10 res in
  if healthy res
  then (Ok (Some true), (t ++ [get; EvPrint "✅ Health check passed"])%list)
  else health_loop w self mr rest
         (t ++ [get; EvPrint (retry_line mr a res)]
            ++ (if a <? mr - 1 then [EvSleep 10] else []))%list.
Proof.
  cbn [health_loop]. unfold requests_get.
  cbv [bind print emit ret ask]. cbv zeta.
  destruct (http_get w t _) as [code text|msg]; cbn [healthy retry_line].
  - destruct (code =? 200).
    + rewrite <- !app_assoc. reflexivity.
    + destruct (a <? mr - 1); rewrite <- !app_assoc; cbn [app];
        try rewrite <- !app_assoc; reflexivity.
  - destruct (a <? mr - 1); rewrite <- !app_assoc; cbn [app];
      try rewrite <- !app_assoc; reflexivity.
Qed.

Lemma gets_app (d1 d2 : Trace) : gets (d1 ++ d2)%list = (gets d1 ++ gets d2)%list.
Proof. apply flat_map_app. Qed.

Lemma sleeps_app (d1 d2 : Trace) :
  sleeps (d1 ++ d2)%list = (sleeps d1 ++ sleeps d2)%list.
Proof. apply flat_map_app. Qed.

Lemma poll_shape_app (d1 d2 : Trace) :
  poll_shape (d1 ++ d2)%list = (poll_shape d1 ++ poll_shape d2)%list.
Proof. apply flat_map_app. Qed.

(** The polling loop: either it returned true on a healthy response, or it
    ran through all its attempts, each unhealthy, sleeping after every
    attempt but those numbered [max_retries - 1] and above. *)
Lemma health_loop_spec (w : World) (self : Pipeline) (mr : Z)
    (attempts : list Z) :
  forall t, exists d,
    snd (health_loop w self mr attempts t) = (t ++ d)%list /\
    match fst (health_loop w self mr attempts t) with
    | Ok (Some true) =>
        existsb healthy (gets d) = true /\
        (length (gets d) <= length attempts)%nat
    | Ok None =>
        forallb unhealthy (gets d) = true /\
        length (gets d) = length attempts /\
        sleeps d = map (fun _ => 10) (filter (fun a => a <? mr - 1) attempts) /\
        poll_shape d =
          flat_map (fun a => true :: if a <? mr - 1 then [false] else [])
                   attempts
    | _ => False
    end.
Proof.
  induction attempts as [|a rest IH]; intro t.
  - exists []. cbn. rewrite app_nil_r. auto.
  - rewrite health_loop_cons. cbv zeta.
    set (res := http_get w t _).
    destruct (healthy res) eqn:Hres.
    + eexists. cbn [fst snd]. split; [reflexivity|].
      cbn [gets flat_map app existsb length]. rewrite Hres.
      split; [reflexivity | lia].
    + set (step := ([EvHttpGet (service_url self ++ "/health") 10 res;
                      EvPrint (retry_line mr a res)]
                     ++ (if a <? mr - 1 then [EvSleep 10] else []))%list).
      destruct (IH (t ++ step)%list) as [d [Hd Hr]].
      exists (step ++ d)%list. rewrite Hd, app_assoc.
      split; [reflexivity|].
      assert (Hg : gets step = [res])
        by (subst step; destruct (a <? mr - 1); reflexivity).
      assert (Hs : sleeps step = if a <? mr - 1 then [10] else [])
        by (subst step; destruct (a <? mr - 1); reflexivity).
      assert (Hp : poll_shape step
                   = true :: if a <? mr - 1 then [false] else [])
        by (subst step; destruct (a <? mr - 1); reflexivity).
      rewrite gets_app, sleeps_app, poll_shape_app, Hg, Hs, Hp.
      destruct (fst (health_loop w self mr rest (t ++ step)%list))
        as [[[|]|]|]; try contradiction.
      * destruct Hr as [He Hl]. cbn [app existsb length].
        rewrite He, orb_true_r. split; [reflexivity | lia].
      * destruct Hr as [Hf [Hl [Hsl Hsh]]].
        cbn [app forallb length filter flat_map].
        unfold unhealthy at 1. rewrite Hres, Hf, Hl, Hsl, Hsh.
        cbn [negb andb].
        repeat split; destruct (a <? mr - 1); reflexivity.
Qed.

(** C2. Outside dry-run mode, health verification never raises; it returns
    true exactly when one of the GET requests it made was answered with
    status 200; it makes at most 5 requests; and when every request was
    unhealthy (a status other than 200, or a transport error) it returns
    false after exactly 5 requests separated by 4 sleeps of 10 seconds. *)
Theorem verify_health_spec (w : World) (self : Pipeline) (t : Trace) :
  dry_run self = false ->
  exists d,
    snd (_verify_health w self t) = (t ++ d)%list /\
    (fst (_verify_health w self t) = Ok true \/
     fst (_verify_health w self t) = Ok false) /\
    (fst (_verify_health w self t) = Ok true <->
     existsb healthy (gets d) = true) /\
    (length (gets d) <= 5)%nat /\
    (forallb unhealthy (gets d) = true ->
     fst (_verify_health w self t) = Ok false /\
     length (gets d) = 5%nat /\
     sleeps d = [10; 10; 10; 10] /\
     poll_shape d =
       [true; false; true; false; true; false; true; false; true]).
Proof.
  intros Hdry. unfold _verify_health. rewrite Hdry.
  cbv [bind print emit ret]. cbv zeta.
  set (t0 := (t ++ [EvPrint _])%list).
  destruct (health_loop_spec w self 5 (range 5) t0) as [d [Hd Hr]].
  destruct (health_loop w self 5 (range 5) t0) as [r t'].
  cbn [fst snd] in Hd, Hr. subst t'.
  destruct r as [[[|]|]|]; try contradiction.
  - destruct Hr as [He Hl]. cbn [fst snd]. subst t0.
    exists (EvPrint ("🏥 Verifying service health: " ++ service_url self
                     ++ "/health") :: d).
    rewrite <- app_assoc. split; [reflexivity|].
    change (gets (EvPrint ("🏥 Verifying service health: "
              ++ service_url self ++ "/health") :: d)) with (gets d).
    split; [auto|]. split; [tauto|]. split; [exact Hl|].
    intros Hf. destruct (healthy_not_all_unhealthy _ He Hf).
  - destruct Hr as [Hf [Hl [Hs Hp]]]. cbn [fst snd]. subst t0.
    exists (EvPrint ("🏥 Verifying service health: " ++ service_url self
                     ++ "/health")
            :: d ++ [EvPrint "❌ Health check failed after maximum retries"])%list.
    rewrite <- !app_assoc. split; [reflexivity|].
    change (gets (EvPrint ("🏥 Verifying service health: "
              ++ service_url self ++ "/health") :: d ++
              [EvPrint "❌ Health check failed after maximum retries"])%list)
      with (gets (d ++ [EvPrint "❌ Health check failed after maximum retries"])%list).
    change (sleeps (EvPrint ("🏥 Verifying service health: "
              ++ service_url self ++ "/health") :: d ++
              [EvPrint "❌ Health check failed after maximum retries"])%list)
      with (sleeps (d ++ [EvPrint "❌ Health check failed after maximum retries"])%list).
    change (poll_shape (EvPrint ("🏥 Verifying service health: "
              ++ service_url self ++ "/health") :: d ++
              [EvPrint "❌ Health check failed after maximum retries"])%list)
      with (poll_shape (d ++ [EvPrint "❌ Health check failed after maximum retries"])%list).
    rewrite gets_app, sleeps_app, poll_shape_app.
    cbn [gets sleeps poll_shape flat_map]. rewrite !app_nil_r.
    fold (gets d) (sleeps d) (poll_shape d).
    split; [auto|]. split.
    + split; [discriminate|]. intros He.
      destruct (healthy_not_all_unhealthy _ He Hf).
    + split; [rewrite Hl; cbn; lia|]. intros _.
      split; [reflexivity|]. split; [exact Hl|]. split; assumption.
Qed.

(** Five attempts, all answered 503. *)
Lemma verify_health_spec_witness :
  dry_run (Samples.pipeline "staging" false) = false /\
  fst (_verify_health
         (Samples.with_http (fun _ _ => Response 503 "down")
            (fun _ _ _ _ => Response 200 "ok") Samples.happy)
         (Samples.pipeline "staging" false) []) = Ok false /\
  length (gets (snd (_verify_health
         (Samples.with_http (fun _ _ => Response 503 "down")
            (fun _ _ _ _ => Response 200 "ok") Samples.happy)
         (Samples.pipeline "staging" false) []))) = 5%nat.
Proof.
  split; [reflexivity|].
  destruct (verify_health_spec
              (Samples.with_http (fun _ _ => Response 503 "down")
                 (fun _ _ _ _ => Response 200 "ok") Samples.happy)
              (Samples.pipeline "staging" false) [] eq_refl)
    as [d [Hd [_ [_ [_ Hall]]]]].
  rewrite Hd. cbn [app].
  assert (Hu : forallb unhealthy (gets d) = true).
  { vm_compute in Hd. subst d. vm_compute. reflexivity. }
  destruct (Hall Hu) as [Hf [Hl _]]. split; assumption.
Defined.

(** ** ManifestUpdate: the document *)

Section DictLaws.

Implicit Types (k : string) (v : yaml) (d : list (string * yaml)).


Lemma dict_get_set_neq k k' v d :
  k <> k' -> dict_get k' (dict_set k v d) = dict_get k' d.
Proof.
  intros Hne. induction d as [|[k0 v0] d IH]; cbn [dict_set dict_get].
  - apply String.eqb_neq in Hne. now rewrite Hne.
  - destruct (k0 =? k)%string eqn:E; cbn [dict_get]; [|now rewrite IH].
    apply String.eqb_eq in E. subst k0.
    apply String.eqb_neq in Hne. now rewrite Hne.
Qed.


Lemma dict_set_set k v v' d :
  dict_set k v (dict_set k v' d) = dict_set k v d.
Proof.
  induction d as [|[k0 v0] d IH]; cbn [dict_set].
  - now rewrite String.eqb_refl.
  - destruct (k0 =? k)%string eqn:E; cbn [dict_set]; rewrite E;
      [reflexivity | now rewrite IH].
Qed.




End DictLaws.

(** What a successful update returns, spelled out. *)
Lemma update_doc_inr (tag ts actor : string) (values doc : yaml) :
  update_doc tag ts actor values = inr doc ->
  exists top img depm,
    values = YMap top /\
    dict_get "image" top = Some (YMap img) /\
    match dict_get "deployment" top with
    | Some d => d
    | None => YMap []
    end = YMap depm /\
    doc = YMap (dict_set "deployment"
                  (YMap (dict_set "updatedBy" (YStr actor)
                           (dict_set "lastUpdated" (YStr ts) depm)))
                  (dict_set "image" (YMap (dict_set "tag" (YStr tag) img))
                     top)).
Proof.
  unfold update_doc. destruct values as [| | | | | |top]; try discriminate.
  destruct (dict_get "image" top) as [[| | | | | |img]|] eqn:Himg;
    try discriminate.
  cbv zeta. rewrite dict_get_set_neq by discriminate.
  destruct (match dict_get "deployment" top with
            | Some d => d
            | None => YMap []
            end) as [| | | | | |depm] eqn:Hdep; try discriminate.
  intros H. injection H as <-.
  exists top, img, depm. rewrite dict_set_set. auto.
Qed.


(** *** Documents with aliases *)

Module SharedYamlFacts.
Import SharedYaml.




Lemma assign_error_embed (v : yaml) :
  assign_error (shape (embed v)) = assign_error v.
Proof. destruct v; reflexivity. Qed.

Lemma subscript_error_embed (v : yaml) :
  subscript_error (shape (embed v)) = subscript_error v.
Proof. destruct v; reflexivity. Qed.




End SharedYamlFacts.




(** ** What the stages add to the trace *)

Section StageEmits.

Variables (w : World) (self : Pipeline) (P : Event -> Prop).

Lemma Emits_run_command (cmd : string) (check : bool) :
  (dry_run self = true -> P (EvPrint ("[DRY RUN] Would execute: " ++ cmd))) ->
  (dry_run self = false -> forall rc, P (EvExec cmd check rc)) ->
  (dry_run self = false -> forall e, P (EvExecRaised cmd check e)) ->
  Emits P (_run_command w self cmd check).
Proof.
  intros Hdry Hreal Hraised. unfold _run_command.
  destruct (dry_run self); emits; auto.
Qed.

Lemma Emits_run_all (cmds : list string) :
  (forall cmd, In cmd cmds -> Emits P (_run_command w self cmd true)) ->
  Emits P (run_all w self cmds).
Proof.
  induction cmds as [|cmd rest IH]; intros H; cbn [run_all]; emits.
  - apply H. now left.
  - apply IH. intros c Hc. apply H. now right.
Qed.

End StageEmits.

(** ** ManifestUpdate: the tag *)

Lemma split_no_sep (c : ascii) (s : string) :
  contains_char c s = false -> split c s = [s].
Proof.
  induction s as [|a s IH]; cbn [contains_char split]; [reflexivity|].
  destruct (Ascii.eqb a c); [discriminate|].
  intros H. now rewrite IH.
Qed.

Lemma split_prefix (c : ascii) (a rest : string) :
  contains_char c a = false ->
  split c (a ++ String c rest) = a :: split c rest.
Proof.
  induction a as [|x a IH]; cbn [contains_char split append].
  - now rewrite Ascii.eqb_refl.
  - destruct (Ascii.eqb x c); [discriminate|].
    intros H. now rewrite IH.
Qed.

Lemma contains_char_prefix (c : ascii) (a rest : string) :
  contains_char c (a ++ String c rest) = true.
Proof.
  induction a as [|x a IH]; cbn [contains_char append].
  - now rewrite Ascii.eqb_refl.
  - now destruct (Ascii.eqb x c).
Qed.

Lemma extract_tag_second (a b rest : string) :
  contains_char ":" a = false ->
  split ":" rest = b :: tl (split ":" rest) ->
  extract_tag (a ++ String ":" rest) = b.
Proof.
  intros Ha Hb. unfold extract_tag.
  rewrite contains_char_prefix, split_prefix by assumption.
  rewrite Hb. reflexivity.
Qed.



(** ** Configuration loading *)

(** C6. With a service name given: when [catalog-info.yaml] is absent,
    [main] ends with an uncaught [FileNotFoundError] after a single
    existence test; when the file is there but does not parse, it ends with
    an uncaught [YAMLError] after a single read.  In both cases the exit
    status is not zero and the run did nothing else: no stage ran, nothing
    was posted, and the load was not tried again. *)
Theorem missing_catalog_aborts (w : World) (svc env : string) (dry : bool)
    (t : Trace) :
  svc <> "" ->
  (path_exists w t "catalog-info.yaml" = false ->
   main w (Some svc) env dry t =
     (Traceback (mkExn FileNotFoundError "catalog-info.yaml not found"),
      (t ++ [EvPathExists "catalog-info.yaml" false])%list) /\
   exit_status (fst (main w (Some svc) env dry t)) <> 0) /\
  (forall msg,
     path_exists w t "catalog-info.yaml" = true ->
     load_yaml w (t ++ [EvPathExists "catalog-info.yaml" true])%list
       "catalog-info.yaml" = Malformed msg ->
     main w (Some svc) env dry t =
       (Traceback (mkExn YAMLError msg),
        (t ++ [EvPathExists "catalog-info.yaml" true;
               EvReadYaml "catalog-info.yaml"])%list) /\
     exit_status (fst (main w (Some svc) env dry t)) <> 0).
Proof.
  intros Hsvc.
  assert (Hmain : main w (Some svc) env dry t =
            match init w svc env dry t with
            | (Raise e, t1) => (Traceback e, t1)
            | (Ok pipeline, t1) =>
                match deploy w pipeline t1 with
                | (Raise e, t2) => (Traceback e, t2)
                | (Ok success, t2) => (Exited (if success then 0 else 1), t2)
                end
            end)
    by (destruct svc; [contradiction | reflexivity]).
  rewrite Hmain. unfold init, _load_config.
  cbv [bind emit ask ret raise].
  split.
  - intros Hno. rewrite Hno. cbn [negb fst exit_status].
    split; [reflexivity | discriminate].
  - intros msg Hyes Hbad. rewrite Hyes. cbn [negb]. rewrite Hbad.
    cbn [fst exit_status]. rewrite <- app_assoc.
    split; [reflexivity | discriminate].
Qed.

(** A run in a directory without catalog file. *)
Lemma missing_catalog_aborts_witness :
  ("user-api" <> "" /\
   path_exists (Samples.with_files (fun _ => false)
                  (fun _ => Malformed "") Samples.happy) []
     "catalog-info.yaml" = false) /\
  main (Samples.with_files (fun _ => false) (fun _ => Malformed "")
          Samples.happy) (Some "user-api") "staging" false [] =
    (Traceback (mkExn FileNotFoundError "catalog-info.yaml not found"),
     [EvPathExists "catalog-info.yaml" false]).
Proof.
  split; [split; [discriminate | reflexivity]|].
  apply (proj1 (missing_catalog_aborts
                  (Samples.with_files (fun _ => false)
                     (fun _ => Malformed "") Samples.happy)
                  "user-api" "staging" false []
                  ltac:(discriminate))).
  reflexivity.
Defined.

(** ** ManifestUpdate: the commit and push *)

(** C5 (the code departs from it).  A real run in which [git push] exits 1:
    the manifest is written first, the push is run and fails, and
    [update_manifest] nevertheless returns normally after reporting the
    push as done; the whole pipeline then ends with exit status 0. *)
Theorem push_failure_is_dropped :
  let w := Samples.failing "git push" 1 "" "rejected" Samples.happy in
  let self := Samples.pipeline "staging" false in
  let img := "registry.company.com/user-api:01234567" in
  fst (update_manifest w self img []) = Ok tt /\
  http_events (snd (update_manifest w self img [])) = [] /\
  filter (fun e => match e with
                   | EvWriteYaml _ _ | EvExec _ _ _ => true
                   | _ => false
                   end)
         (snd (update_manifest w self img [])) =
    [ EvWriteYaml "deploy/staging/values.yaml"
        (YMap [ ("replicaCount", YInt 2);
                ("image",
                 YMap [ ("repository", YStr "registry.company.com/user-api");
                        ("tag", YStr "01234567");
                        ("pullPolicy", YStr "IfNotPresent") ]);
                ("service", YMap [ ("port", YInt 8080) ]);
                ("deployment",
                 YMap [ ("lastUpdated", YStr "T+3");
                        ("updatedBy", YStr "unknown") ]) ]);
      EvExec "git add deploy/staging/values.yaml" true 0;
      EvExec "git commit -m 'Deploy user-api:01234567 to staging'" true 0;
      EvExec "git push origin main" true 1 ] /\
  last (snd (update_manifest w self img [])) (EvSleep 0)
    = EvPrint "✅ Manifest updated and pushed" /\
  fst (main w (Some "user-api") "staging" false []) = Exited 0.
Proof. vm_compute. repeat split. Qed.

(** ** Events of the stages before the rollback *)

Section StageEvents.

Variables (w : World) (self : Pipeline).

(** A command other than the rollback, handed to the command runner. *)
Lemma run_command_stage (cmd : string) (check : bool) :
  cmd <> rollback_cmd self ->
  Emits (stage_event self) (_run_command w self cmd check).
Proof.
  intros Hne. apply Emits_run_command.
  - intros _. exact I.
  - intros Hreal rc. split; assumption.
  - intros Hreal e. split; assumption.
Qed.

Ltac not_rollback :=
  unfold rollback_cmd, scan_cmd, rollout_status_cmd; cbn [append];
  discriminate.

Ltac stage_events :=
  emits;
  first [ exact I
        | apply run_command_stage; not_rollback
        | idtac ].

Lemma run_tests_events : Emits (stage_event self) (run_tests w self).
Proof. unfold run_tests, tests. cbn [run_tests_loop]. stage_events. Qed.

Lemma build_image_events : Emits (stage_event self) (build_image w self).
Proof. unfold build_image. stage_events. Qed.

Lemma security_scan_events (image_tag : string) :
  Emits (stage_event self) (security_scan w self image_tag).
Proof. unfold security_scan. stage_events. Qed.

Lemma update_manifest_events (image_tag : string) :
  Emits (stage_event self) (update_manifest w self image_tag).
Proof.
  unfold update_manifest. stage_events.
  apply Emits_run_all. intros cmd Hin. apply run_command_stage.
  cbn [git_commands In] in Hin.
  destruct Hin as [<-|[<-|[<-|[]]]]; not_rollback.
Qed.

Lemma trigger_argocd_sync_events :
  Emits (stage_event self) (trigger_argocd_sync w self).
Proof.
  unfold trigger_argocd_sync, requests_post. stage_events. reflexivity.
Qed.

Lemma health_loop_events (mr : Z) (attempts : list Z) :
  dry_run self = false ->
  Emits (stage_event self) (health_loop w self mr attempts).
Proof.
  intros Hreal. induction attempts as [|a rest IH]; cbn [health_loop];
    unfold requests_get; stage_events; assumption.
Qed.

Lemma wait_for_deployment_events (timeout : Z) :
  Emits (stage_event self) (wait_for_deployment w self timeout).
Proof.
  unfold wait_for_deployment, _verify_health. stage_events.
  all: try (apply health_loop_events; assumption).
Qed.

End StageEvents.

(** ** Rollback and notification *)

Lemma count_undo_app (self : Pipeline) (d1 d2 : Trace) :
  count_undo self (d1 ++ d2)%list
  = (count_undo self d1 + count_undo self d2)%nat.
Proof. unfold count_undo. now rewrite filter_app, length_app. Qed.

Lemma stage_events_no_undo (self : Pipeline) (d : Trace) :
  Forall (stage_event self) d -> count_undo self d = 0%nat.
Proof.
  unfold count_undo. induction 1 as [|e d He _ IH]; [reflexivity|].
  cbn [filter]. destruct e; cbn [is_undo]; try exact IH.
  all: destruct He as [_ Hne]; apply String.eqb_neq in Hne; now rewrite Hne.
Qed.

Lemma notif_events_no_undo (self : Pipeline) (msg : string) (d : Trace) :
  Forall (notif_event msg) d -> count_undo self d = 0%nat.
Proof.
  unfold count_undo. induction 1 as [|e d He _ IH]; [reflexivity|].
  cbn [filter]. destruct e; cbn [is_undo]; try exact IH.
  all: destruct He.
Qed.

(** [send_notification] always returns normally, whatever the channel
    does, and what it adds to the trace is at most the post of a Slack
    body carrying [message] and a warning line. *)
Lemma send_notification_spec (w : World) (self : Pipeline) (success : bool)
    (message : string) (t : Trace) :
  exists d,
    send_notification w self success message t = (Ok tt, (t ++ d)%list) /\
    Forall (notif_event message) d.
Proof.
  unfold send_notification, requests_post, slack_payload.
  destruct (getenv w "SLACK_WEBHOOK_URL") as [url|].
  - destruct (url =? "")%string.
    + exists []. cbv [ret]. rewrite app_nil_r. auto.
    + cbv [bind print emit ret ask]. cbv zeta.
      destruct (http_post w t url None _) as [code text|err] eqn:Hpost.
      * eexists [_]. split; [reflexivity|].
        repeat constructor.
      * eexists [_; _]. rewrite <- app_assoc.
        split; [reflexivity|]. repeat constructor.
  - exists []. cbv [ret]. rewrite app_nil_r. auto.
Qed.

(** In real mode [rollback] runs the undo command once.  When the command
    completes it returns whether it exited with 0; when running it raises,
    so does [rollback]. *)
Lemma rollback_spec (w : World) (self : Pipeline) (t : Trace) :
  dry_run self = false ->
  match shell w (t ++ [EvPrint "🔙 Initiating rollback..."])%list
          (rollback_cmd self) with
  | Completed r =>
      rollback w self t =
        (Ok (returncode r =? 0),
         (t ++ [EvPrint "🔙 Initiating rollback...";
                EvExec (rollback_cmd self) false (returncode r);
                EvPrint (if returncode r =? 0
                         then "✅ Rollback completed successfully"
                         else "❌ Rollback failed: " ++ stdout r)])%list)
  | Crashed e =>
      rollback w self t =
        (Raise e,
         (t ++ [EvPrint "🔙 Initiating rollback...";
                EvExecRaised (rollback_cmd self) false e])%list)
  end.
Proof.
  intros Hreal. unfold rollback. cbv [bind print emit ret].
  destruct (shell w _ (rollback_cmd self)) as [r|e] eqn:Hsh.
  - rewrite (run_command_completed w self _ _ _ _ Hreal Hsh). cbn [andb].
    destruct (returncode r =? 0); rewrite <- !app_assoc; reflexivity.
  - rewrite (run_command_crashed w self _ _ _ _ Hreal Hsh).
    rewrite <- !app_assoc. reflexivity.
Qed.

Lemma Emits_run {A} (P : Event -> Prop) (m : M A) (t t' : Trace) (r : Res A) :
  Emits P m -> m t = (r, t') -> exists d, t' = (t ++ d)%list /\ Forall P d.
Proof.
  intros Hm Hrun. destruct (Hm t) as [d [Hd HP]].
  rewrite Hrun in Hd. exists d. auto.
Qed.

Lemma deploy_unfold (w : World) (self : Pipeline) (t : Trace) :
  deploy w self t =
  try_except (deploy_body w self)
    (fun e =>
       print (nl ++ "❌ Deployment failed with error: " ++ exn_msg e) ;;;
       send_notification w self false ("Deployment error: " ++ exn_msg e) ;;;
       ret false)
    (t ++ banner self)%list.
Proof.
  unfold deploy, banner. cbv [bind print emit].
  rewrite <- !app_assoc. reflexivity.
Qed.

(** ** The verification failure path *)

(** C1, as the code has it.  Take a run whose stages succeed up to the
    deployment wait.  When the wait / health verification returns false,
    the rollback is invoked, exactly once in the whole run and not before
    the failure, and [deploy] returns false whatever the rollback does.
    When the undo command completes, with any exit status, the run ends
    with the notification "Deployment failed, rolled back"; when running
    the undo command raises, the exception reaches the handler of [deploy]
    and the run ends with the notification "Deployment error: " followed
    by the exception text.  When the wait stage itself raises, no rollback
    is invoked and the run ends the same way. *)
Theorem verify_failure_rolls_back (w : World) (self : Pipeline)
    (t0 t1 t2 t3 t4 t5 : Trace) (img : string) :
  run_tests w self (t0 ++ banner self)%list = (Ok true, t1) ->
  build_image w self t1 = (Ok img, t2) ->
  security_scan w self img t2 = (Ok true, t3) ->
  update_manifest w self img t3 = (Ok tt, t4) ->
  trigger_argocd_sync w self t4 = (Ok true, t5) ->
  (forall t6,
     wait_for_deployment w self 600 t5 = (Ok false, t6) ->
     let t_w :=
       (t6 ++ [EvPrint "⚠️  Deployment verification failed, initiating rollback...";
               EvPrint "🔙 Initiating rollback..."])%list in
     exists d_pre d_note,
       t6 = (t0 ++ banner self ++ d_pre)%list /\
       Forall (stage_event self) d_pre /\
       count_undo self t6 = count_undo self t0 /\
       fst (deploy w self t0) = Ok false /\
       count_undo self (snd (deploy w self t0))
         = (count_undo self t0 + 1)%nat /\
       match shell w t_w (rollback_cmd self) with
       | Completed r =>
           let t_rb :=
             (t_w ++ [EvExec (rollback_cmd self) false (returncode r);
                      EvPrint (if returncode r =? 0
                               then "✅ Rollback completed successfully"
                               else "❌ Rollback failed: " ++ stdout r)])%list in
           snd (deploy w self t0) = (t_rb ++ d_note)%list /\
           send_notification w self false "Deployment failed, rolled back"
             t_rb = (Ok tt, (t_rb ++ d_note)%list) /\
           Forall (notif_event "Deployment failed, rolled back") d_note
       | Crashed e =>
           snd (deploy w self t0) =
             (t_w ++ [EvExecRaised (rollback_cmd self) false e;
                      EvPrint (nl ++ "❌ Deployment failed with error: "
                               ++ exn_msg e)] ++ d_note)%list /\
           Forall (notif_event ("Deployment error: " ++ exn_msg e)) d_note
       end) /\
  (forall e t6,
     wait_for_deployment w self 600 t5 = (Raise e, t6) ->
     exists d_pre d_note,
       t6 = (t0 ++ banner self ++ d_pre)%list /\
       Forall (stage_event self) d_pre /\
       deploy w self t0 =
         (Ok false,
          (t6 ++ EvPrint (nl ++ "❌ Deployment failed with error: "
                          ++ exn_msg e) :: d_note)%list) /\
       Forall (notif_event ("Deployment error: " ++ exn_msg e)) d_note /\
       count_undo self (snd (deploy w self t0)) = count_undo self t0).
Proof.
  intros H1 H2 H3 H4 H5.
  destruct (Emits_run _ _ _ _ _ (run_tests_events w self) H1) as [d1 [-> F1]].
  destruct (Emits_run _ _ _ _ _ (build_image_events w self) H2) as [d2 [-> F2]].
  destruct (Emits_run _ _ _ _ _ (security_scan_events w self img) H3)
    as [d3 [-> F3]].
  destruct (Emits_run _ _ _ _ _ (update_manifest_events w self img) H4)
    as [d4 [-> F4]].
  destruct (Emits_run _ _ _ _ _ (trigger_argocd_sync_events w self) H5)
    as [d5 [-> F5]].
  assert (Hpre : forall r t6,
            wait_for_deployment w self 600
              ((((((t0 ++ banner self) ++ d1) ++ d2) ++ d3) ++ d4) ++ d5)%list
              = (r, t6) ->
            exists d_pre,
              t6 = (t0 ++ banner self ++ d_pre)%list /\
              Forall (stage_event self) d_pre /\
              count_undo self t6 = count_undo self t0).
  { intros r t6 H6.
    destruct (Emits_run _ _ _ _ _ (wait_for_deployment_events w self 600) H6)
      as [d6 [Ht6 F6]].
    exists (d1 ++ d2 ++ d3 ++ d4 ++ d5 ++ d6)%list.
    assert (Fpre : Forall (stage_event self)
                     (d1 ++ d2 ++ d3 ++ d4 ++ d5 ++ d6)%list)
      by (repeat (apply Forall_app; split); assumption).
    split; [rewrite Ht6, <- !app_assoc; reflexivity|].
    split; [exact Fpre|].
    rewrite Ht6, <- !app_assoc.
    rewrite count_undo_app, (count_undo_app self (banner self)).
    rewrite (stage_events_no_undo self _ Fpre).
    unfold banner, count_undo. cbn [filter is_undo length].
    apply Nat.add_0_r. }
  assert (Hbody : forall t6 (k : Trace -> Res bool * Trace),
            wait_for_deployment w self 600
              ((((((t0 ++ banner self) ++ d1) ++ d2) ++ d3) ++ d4) ++ d5)%list
              = (Ok false, t6) ->
            deploy_body w self (t0 ++ banner self)%list =
              (print "⚠️  Deployment verification failed, initiating rollback..." ;;;
               rollback w self ;;;
               send_notification w self false "Deployment failed, rolled back" ;;;
               ret false) t6).
  { intros t6 _ H6. unfold deploy_body. cbv [bind].
    rewrite H1. cbn [negb]. cbv beta iota. rewrite H2. cbv beta iota.
    rewrite H3. cbn [negb]. cbv beta iota. rewrite H4. cbv beta iota.
    rewrite H5. cbn [negb]. cbv beta iota. rewrite H6. cbn [negb].
    reflexivity. }
  split.
  - intros t6 H6. cbv zeta.
    assert (Hreal : dry_run self = false).
    { destruct (dry_run self) eqn:Hd; [|reflexivity].
      unfold wait_for_deployment in H6. rewrite Hd in H6.
      cbv [bind print emit ret] in H6. discriminate H6. }
    destruct (Hpre _ _ H6) as (d_pre & Ht6 & Fpre & Hc6).
    pose proof (rollback_spec w self
                  (t6 ++ [EvPrint "⚠️  Deployment verification failed, initiating rollback..."])%list
                  Hreal) as Hrb.
    rewrite <- app_assoc in Hrb. cbn [app] in Hrb.
    rewrite deploy_unfold. unfold try_except.
    rewrite (Hbody t6 (fun t => (Ok false, t)) H6).
    cbv [bind print emit].
    destruct (shell w _ (rollback_cmd self)) as [r|e].
    + rewrite Hrb, <- !app_assoc. cbn [app].
      match goal with
      | |- context [send_notification w self false ?m ?t] =>
          destruct (send_notification_spec w self false m t) as [d_note [Hn Fn]]
      end.
      rewrite Hn. cbv [ret]. cbn [fst snd].
      exists d_pre, d_note.
      split; [exact Ht6|]. split; [exact Fpre|]. split; [exact Hc6|].
      split; [reflexivity|]. split.
      * rewrite count_undo_app, (notif_events_no_undo self _ _ Fn).
        rewrite count_undo_app, Hc6.
        unfold count_undo at 2. cbn [filter is_undo length].
        rewrite String.eqb_refl. cbn [length]. lia.
      * rewrite <- !app_assoc. cbn [app].
        split; [reflexivity|]. split; [reflexivity | exact Fn].
    + rewrite Hrb, <- !app_assoc. cbn [app]. cbv beta iota.
      match goal with
      | |- context [send_notification w self false ?m ?t] =>
          destruct (send_notification_spec w self false m t) as [d_note [Hn Fn]]
      end.
      rewrite Hn. cbv [ret]. cbn [fst snd].
      exists d_pre, d_note.
      split; [exact Ht6|]. split; [exact Fpre|]. split; [exact Hc6|].
      split; [reflexivity|]. split.
      * rewrite count_undo_app, (notif_events_no_undo self _ _ Fn).
        rewrite count_undo_app, Hc6.
        unfold count_undo at 2. cbn [filter is_undo length].
        rewrite String.eqb_refl. cbn [length]. lia.
      * rewrite <- !app_assoc. cbn [app]. split; [reflexivity | exact Fn].
  - intros e t6 H6.
    destruct (Hpre _ _ H6) as (d_pre & Ht6 & Fpre & Hc6).
    destruct (send_notification_spec w self false
                ("Deployment error: " ++ exn_msg e)
                (t6 ++ [EvPrint (nl ++ "❌ Deployment failed with error: "
                                 ++ exn_msg e)])%list) as [d_note [Hn Fn]].
    exists d_pre, d_note.
    split; [exact Ht6|]. split; [exact Fpre|].
    assert (Hd : deploy w self t0 =
              (Ok false,
               (t6 ++ EvPrint (nl ++ "❌ Deployment failed with error: "
                               ++ exn_msg e) :: d_note)%list)).
    { rewrite deploy_unfold. unfold try_except, deploy_body. cbv [bind].
      rewrite H1. cbn [negb]. cbv beta iota. rewrite H2. cbv beta iota.
      rewrite H3. cbn [negb]. cbv beta iota. rewrite H4. cbv beta iota.
      rewrite H5. cbn [negb]. cbv beta iota. rewrite H6.
      cbv [print emit ret]. rewrite Hn, <- app_assoc. reflexivity. }
    split; [exact Hd|]. split; [exact Fn|].
    rewrite Hd. cbn [snd].
    change (t6 ++ EvPrint (nl ++ "❌ Deployment failed with error: "
                           ++ exn_msg e) :: d_note)%list
      with (t6 ++ [EvPrint (nl ++ "❌ Deployment failed with error: "
                            ++ exn_msg e)] ++ d_note)%list.
    rewrite !count_undo_app, (notif_events_no_undo self _ _ Fn), Hc6.
    unfold count_undo at 2. cbn [filter is_undo length]. lia.
Qed.

(** The rollout never becomes ready, the undo command fails as well. *)
Lemma verify_failure_rolls_back_witness :
  fst (deploy
         (Samples.with_env [("SLACK_WEBHOOK_URL", "https://hooks.example")]
            (Samples.failing "kubectl rollout" 1 "" "" Samples.happy))
         (Samples.pipeline "staging" false) []) = Ok false /\
  count_undo (Samples.pipeline "staging" false)
    (snd (deploy
            (Samples.with_env [("SLACK_WEBHOOK_URL", "https://hooks.example")]
               (Samples.failing "kubectl rollout" 1 "" "" Samples.happy))
            (Samples.pipeline "staging" false) [])) = 1%nat.
Proof.
  pose (W := Samples.with_env [("SLACK_WEBHOOK_URL", "https://hooks.example")]
               (Samples.failing "kubectl rollout" 1 "" "" Samples.happy)).
  pose (S := Samples.pipeline "staging" false).
  pose (img := "registry.company.com/user-api:01234567").
  pose (t1 := snd (run_tests W S ([] ++ banner S)%list)).
  pose (t2 := snd (build_image W S t1)).
  pose (t3 := snd (security_scan W S img t2)).
  pose (t4 := snd (update_manifest W S img t3)).
  pose (t5 := snd (trigger_argocd_sync W S t4)).
  pose (t6 := snd (wait_for_deployment W S 600 t5)).
  destruct (verify_failure_rolls_back W S [] t1 t2 t3 t4 t5 img)
    as [Hfalse _]; [vm_compute; reflexivity ..|].
  destruct (Hfalse t6) as (dp & dn & _ & _ & _ & Hr & Hc & _);
    [vm_compute; reflexivity|].
  fold W S. split; [exact Hr | exact Hc].
Defined.

(** C1, as stated, fails: the wait stage returns false and the undo
    command cannot be started.  The rollback is invoked, but the run is
    reported as a deployment error, not as the verification failure. *)
Lemma rollback_exception_changes_cause :
  let w := Samples.with_env [("SLACK_WEBHOOK_URL", "https://hooks.example")]
             (Samples.crashing "kubectl rollout undo"
                (mkExn OSError "[Errno 12] Cannot allocate memory")
                (Samples.failing "kubectl rollout status" 1 "timed out" ""
                   Samples.happy)) in
  let self := Samples.pipeline "staging" false in
  fst (wait_for_deployment w self 600
         (snd (trigger_argocd_sync w self
            (snd (update_manifest w self
                    "registry.company.com/user-api:01234567"
               (snd (security_scan w self
                       "registry.company.com/user-api:01234567"
                  (snd (build_image w self
                     (snd (run_tests w self (banner self)))))))))))) = Ok false /\
  fst (deploy w self []) = Ok false /\
  count_undo self (snd (deploy w self [])) = 1%nat /\
  exists duration,
    slack_bodies (snd (deploy w self [])) =
      [SlackBody "danger" "❌ Deployment Failed" "user-api" "staging" duration
         "Deployment error: [Errno 12] Cannot allocate memory"].
Proof.
  cbv zeta. split; [vm_compute; reflexivity|].
  split; [vm_compute; reflexivity|]. split; [vm_compute; reflexivity|].
  eexists. vm_compute. reflexivity.
Qed.

(** ** Notification *)

Section NotificationChannel.

Variables (w : World) (hook : option string)
          (deliver : Trace -> string -> JsonBody -> HttpResult).

Let w' := set_notification hook deliver w.

(** No stage looks at the notification channel. *)
Lemma stages_ignore_channel (self : Pipeline) :
  run_tests w' self = run_tests w self /\
  build_image w' self = build_image w self /\
  security_scan w' self = security_scan w self /\
  update_manifest w' self = update_manifest w self /\
  trigger_argocd_sync w' self = trigger_argocd_sync w self /\
  wait_for_deployment w' self = wait_for_deployment w self /\
  rollback w' self = rollback w self.
Proof. repeat split; reflexivity. Qed.

Lemma init_ignores_channel (svc env : string) (dry : bool) :
  init w' svc env dry = init w svc env dry.
Proof. reflexivity. Qed.

Ltac notified :=
  repeat match goal with
    | |- context [send_notification ?v ?s ?b ?m ?t] =>
        let d := fresh "d" in
        destruct (send_notification_spec v s b m t) as [d [-> _]]
    end;
  reflexivity.

Lemma deploy_ignores_channel (self : Pipeline) (t : Trace) :
  fst (deploy w' self t) = fst (deploy w self t).
Proof.
  rewrite !deploy_unfold.
  destruct (stages_ignore_channel self)
    as (E1 & E2 & E3 & E4 & E5 & E6 & E7).
  unfold try_except, deploy_body. rewrite E1, E2, E3, E4, E5, E6, E7.
  change (now w') with (now w).
  cbv [bind print emit ask ret].
  destruct (run_tests w self _) as [[[|]|e1] t1]; cbn [negb];
    [|notified|notified].
  destruct (build_image w self t1) as [[img|e2] t2]; [|notified].
  destruct (security_scan w self img t2) as [[[|]|e3] t3]; cbn [negb];
    [|notified|notified].
  destruct (update_manifest w self img t3) as [[[]|e4] t4]; [|notified].
  destruct (trigger_argocd_sync w self t4) as [[[|]|e5] t5]; cbn [negb];
    [|notified|notified].
  destruct (wait_for_deployment w self 600 t5) as [[[|]|e6] t6]; cbn [negb];
    [notified| |notified].
  destruct (rollback w self _) as [[rb|e7] t7]; notified.
Qed.

End NotificationChannel.

(** C9 (as stated, it does not hold).  The webhook answers the post with
    HTTP 500: [send_notification] returns normally, and nothing at all is
    printed, so this failure to deliver is swallowed but not logged. *)
Lemma http_error_is_not_logged :
  let w := Samples.with_http (fun _ _ => Response 200 "OK")
             (fun _ _ _ _ => Response 500 "Internal Server Error")
             (Samples.with_env
                [("SLACK_WEBHOOK_URL", "https://hooks.slack.com/services/T0")]
                Samples.happy) in
  let self := Samples.pipeline "staging" false in
  send_notification w self false "Tests failed" [] =
    (Ok tt,
     [EvHttpPost "https://hooks.slack.com/services/T0" None
        (SlackBody "danger" "❌ Deployment Failed" "user-api" "staging" "0s"
           "Tests failed")
        (Response 500 "Internal Server Error")]) /\
  printed (snd (send_notification w self false "Tests failed" [])) = [].
Proof. vm_compute. split; reflexivity. Qed.

(** C9 (amended).  [send_notification] returns normally for every
    behaviour of the channel.  Without a webhook (unset or empty) it does
    nothing.  With one it posts the Slack body once; when the post raises,
    the exception is swallowed and the one line "Failed to send
    notification: ..." with its text is printed; when the post is answered,
    whatever the HTTP status, nothing is printed.  Replacing the
    notification channel of a world by any other one, for instance one that
    always delivers, leaves the result of [deploy] and the way [main] ends,
    hence the exit status, unchanged. *)
Theorem notification_never_decides (w : World) (hook : option string)
    (deliver : Trace -> string -> JsonBody -> HttpResult) :
  (forall self success message t,
     exists d, send_notification w self success message t
               = (Ok tt, (t ++ d)%list)) /\
  (forall self success message t,
     truthy (getenv w "SLACK_WEBHOOK_URL") = false ->
     send_notification w self success message t = (Ok tt, t)) /\
  (forall self success message t url,
     getenv w "SLACK_WEBHOOK_URL" = Some url -> url <> "" ->
     let body := slack_payload self success message
                   (now w t - deployment_start self) in
     match http_post w t url None body with
     | NetworkError err =>
         send_notification w self success message t =
           (Ok tt,
            (t ++ [EvHttpPost url None body (NetworkError err);
                   EvPrint ("⚠️  Failed to send notification: " ++ err)])%list)
     | Response code text =>
         send_notification w self success message t =
           (Ok tt, (t ++ [EvHttpPost url None body (Response code text)])%list)
     end) /\
  (forall self t,
     fst (deploy (set_notification hook deliver w) self t)
     = fst (deploy w self t)) /\
  (forall service env dry t,
     fst (main (set_notification hook deliver w) service env dry t)
     = fst (main w service env dry t)) /\
  (forall service env dry t,
     exit_status (fst (main (set_notification hook deliver w)
                         service env dry t))
     = exit_status (fst (main w service env dry t))).
Proof.
  assert (Hmain : forall service env dry t,
     fst (main (set_notification hook deliver w) service env dry t)
     = fst (main w service env dry t)).
  { intros service env dry t. unfold main.
    destruct service as [[|c svc]|]; try reflexivity.
    rewrite init_ignores_channel.
    destruct (init w (String c svc) env dry t) as [[p|e] t1];
      [|reflexivity].
    pose proof (deploy_ignores_channel w hook deliver p t1) as Hd.
    destruct (deploy (set_notification hook deliver w) p t1) as [r' t2'].
    destruct (deploy w p t1) as [r t2].
    cbn [fst] in Hd. subst r'. destruct r as [[|]|e]; reflexivity. }
  split; [|split; [|split; [|split; [|split]]]].
  - intros self success message t.
    destruct (send_notification_spec w self success message t) as [d [H _]].
    exists d. exact H.
  - intros self success message t. unfold send_notification.
    destruct (getenv w "SLACK_WEBHOOK_URL") as [url|]; cbn [truthy];
      [|reflexivity].
    destruct (url =? "")%string; cbn [negb]; [reflexivity|discriminate].
  - intros self success message t url Hurl Hne. cbv zeta.
    unfold send_notification, requests_post. rewrite Hurl.
    apply String.eqb_neq in Hne. rewrite Hne.
    cbv [bind print emit ret ask]. cbv zeta.
    destruct (http_post w t url None _) as [code text|err];
      rewrite <- ?app_assoc; reflexivity.
  - intros self t. apply deploy_ignores_channel.
  - exact Hmain.
  - intros. now rewrite Hmain.
Qed.

(** ** Dry run *)

Lemma send_notification_events (w : World) (self : Pipeline) (success : bool)
    (message : string) :
  Emits (notif_event message) (send_notification w self success message).
Proof.
  intro t. destruct (send_notification_spec w self success message t)
    as [d [H F]].
  exists d. rewrite H. auto.
Qed.

Lemma stage_event_dry (self : Pipeline) (e : Event) :
  dry_run self = true -> stage_event self e -> dry_event e.
Proof.
  intros Hdry. destruct e as [| | | | | | | |url bearer [prune dr|] res|];
    cbn [stage_event dry_event]; rewrite ?Hdry; try tauto;
    try discriminate.
  all: intros [H _]; discriminate.
Qed.

Lemma notif_event_dry (message : string) (e : Event) :
  notif_event message e -> dry_event e.
Proof.
  destruct e as [| | | | | | | |url [b|] [prune dr|] res|];
    cbn [notif_event dry_event]; tauto.
Qed.

(** C4, as the code has it.  In a dry run the command runner executes
    nothing: it prints the command it was given, the very text it would
    hand to the shell in a real run, and returns [(0, "dry-run-output")].
    In a real run the same call hands exactly that text to the shell.
    The whole of [deploy] then runs no command, polls no health endpoint
    and does not sleep; a sync request, when one is issued, carries
    [dryRun = true]. *)
Theorem dry_run_reports_commands (w : World) (self : Pipeline) :
  dry_run self = true ->
  (forall cmd check t,
     _run_command w self cmd check t =
       (Ok (0, "dry-run-output"),
        (t ++ [EvPrint ("[DRY RUN] Would execute: " ++ cmd)])%list)) /\
  (forall self', dry_run self' = false ->
     forall cmd check t,
       (exists rc out,
          _run_command w self' cmd check t =
            (Ok (rc, out), (t ++ [EvExec cmd check rc])%list)) \/
       (exists e,
          _run_command w self' cmd check t =
            (Raise e, (t ++ [EvExecRaised cmd check e])%list))) /\
  Emits dry_event (deploy w self).
Proof.
  intros Hdry. split; [|split].
  - intros cmd check t. unfold _run_command. rewrite Hdry. reflexivity.
  - intros self' Hreal cmd check t.
    destruct (shell w t cmd) as [r|e] eqn:Hsh.
    + left. rewrite (run_command_completed w self' _ _ _ _ Hreal Hsh).
      eexists _, _. reflexivity.
    + right. rewrite (run_command_crashed w self' _ _ _ _ Hreal Hsh).
      eexists. reflexivity.
  - assert (Hstage : forall A (m : M A),
              Emits (stage_event self) m -> Emits dry_event m)
      by (intros A m; apply Emits_weaken; intro e;
          apply stage_event_dry; exact Hdry).
    assert (Hnote : forall success message,
              Emits dry_event (send_notification w self success message))
      by (intros; eapply Emits_weaken;
          [apply notif_event_dry | apply send_notification_events]).
    unfold deploy, deploy_body.
    emits;
      first [ exact I
            | apply Hnote
            | apply Hstage;
              first [ apply run_tests_events
                    | apply build_image_events
                    | apply security_scan_events
                    | apply update_manifest_events
                    | apply trigger_argocd_sync_events
                    | apply wait_for_deployment_events ]
            | idtac ].
    unfold rollback. emits; try exact I.
    apply Emits_run_command; [intros; exact I| |];
      intros Hreal; rewrite Hdry in Hreal; discriminate.
Qed.

(** A dry run of the staging pipeline: the push is only reported. *)
Lemma dry_run_reports_commands_witness :
  dry_run (Samples.pipeline "staging" true) = true /\
  _run_command Samples.happy (Samples.pipeline "staging" true)
    "git push origin main" true [] =
    (Ok (0, "dry-run-output"),
     [EvPrint "[DRY RUN] Would execute: git push origin main"]).
Proof.
  split; [reflexivity|].
  apply (proj1 (dry_run_reports_commands Samples.happy
                  (Samples.pipeline "staging" true) eq_refl)
           "git push origin main" true []).
Defined.

(** C4, as stated, fails: a dry run with the sync controller configured
    still sends the sync request over the network (with [dryRun] set in
    its body). *)
Lemma dry_run_still_posts :
  dry_run (Samples.pipeline "staging" true) = true /\
  http_events
    (snd (deploy
            (Samples.with_env [("ARGOCD_API_URL", "https://argo");
                               ("ARGOCD_TOKEN", "s3cr3t")] Samples.happy)
            (Samples.pipeline "staging" true) [])) =
    [EvHttpPost "https://argo/api/v1/applications/user-api-staging/sync"
       (Some "s3cr3t") (SyncBody false true) (Response 200 "ok")].
Proof. split; vm_compute; reflexivity. Qed.

(** * Further properties of the pipeline *)

(** ** The command runner *)

Lemma execs_app (d1 d2 : Trace) :
  execs (d1 ++ d2)%list = (execs d1 ++ execs d2)%list.
Proof. apply flat_map_app. Qed.

Lemma writes_app (d1 d2 : Trace) :
  writes (d1 ++ d2)%list = (writes d1 ++ writes d2)%list.
Proof. apply flat_map_app. Qed.

Lemma slack_bodies_app (d1 d2 : Trace) :
  slack_bodies (d1 ++ d2)%list = (slack_bodies d1 ++ slack_bodies d2)%list.
Proof. apply flat_map_app. Qed.

(** ** Test *)

Lemma raised_app (d1 d2 : Trace) :
  raised (d1 ++ d2)%list = (raised d1 ++ raised d2)%list.
Proof. apply flat_map_app. Qed.

(** The loop over the test commands, in a real run: either every command
    exited 0 and all were run, or the commands were run up to the first
    one that exited non-zero or could not be run, and none after it. *)
Lemma run_tests_loop_spec (w : World) (self : Pipeline) :
  dry_run self = false ->
  forall (ts : list (string * string)) (t : Trace),
  exists d,
    snd (run_tests_loop w self ts t) = (t ++ d)%list /\
    ((fst (run_tests_loop w self ts t) = Ok true /\
      execs d = map (fun c => (c, 0)) (map snd ts) /\ raised d = []) \/
     (fst (run_tests_loop w self ts t) = Ok false /\
      exists pre cmd rc post,
        map snd ts = (pre ++ cmd :: post)%list /\ rc <> 0 /\
        execs d = (map (fun c => (c, 0)) pre ++ [(cmd, rc)])%list /\
        raised d = []) \/
     (exists e pre cmd post,
        fst (run_tests_loop w self ts t) = Raise e /\
        map snd ts = (pre ++ cmd :: post)%list /\
        execs d = map (fun c => (c, 0)) pre /\
        raised d = [(cmd, e)])).
Proof.
  intros Hreal. induction ts as [|[name cmd] rest IH]; intro t.
  - eexists [_]. cbn [run_tests_loop]. cbv [bind print emit ret].
    cbn [fst snd]. split; [reflexivity|]. left. repeat split; reflexivity.
  - cbn [run_tests_loop]. cbv [bind print emit ret].
    set (t1 := (t ++ [EvPrint ("  Running " ++ name ++ "...")])%list).
    destruct (shell w t1 cmd) as [r|e] eqn:Hsh.
    + rewrite (run_command_completed w self cmd false _ _ Hreal Hsh).
      cbn [andb]. set (rc := returncode r).
      destruct (rc =? 0) eqn:Hrc; cbn [negb]; cbv beta iota.
      * apply Z.eqb_eq in Hrc.
        destruct (IH ((t1 ++ [EvExec cmd false rc])
                        ++ [EvPrint ("  ✓ " ++ name ++ " passed")])%list)
          as [d [Hd Hres]].
        exists ([EvPrint ("  Running " ++ name ++ "..."); EvExec cmd false rc;
                 EvPrint ("  ✓ " ++ name ++ " passed")] ++ d)%list.
        split; [rewrite Hd; subst t1; rewrite <- !app_assoc; reflexivity|].
        rewrite execs_app, raised_app.
        cbn [execs raised flat_map app map snd].
        destruct Hres as [(Hok & He & Hr)
                         |[(Hko & pre & c & r0 & post & Hts & Hne & He & Hr)
                          |(e & pre & c & post & Hex & Hts & He & Hr)]].
        -- left. split; [exact Hok|]. rewrite He, Hr, Hrc.
           split; reflexivity.
        -- right; left. split; [exact Hko|].
           exists (cmd :: pre), c, r0, post. rewrite Hts, He, Hr, Hrc.
           repeat split; auto.
        -- right; right. exists e, (cmd :: pre), c, post.
           split; [exact Hex|]. rewrite Hts, He, Hr, Hrc.
           repeat split; auto.
      * apply Z.eqb_neq in Hrc.
        exists [EvPrint ("  Running " ++ name ++ "..."); EvExec cmd false rc;
                EvPrint ("❌ " ++ name ++ " failed:");
                EvPrint (stdout r)].
        cbn [fst snd]. split; [subst t1; rewrite <- !app_assoc; reflexivity|].
        right; left. split; [reflexivity|].
        exists [], cmd, rc, (map snd rest). repeat split; auto.
    + rewrite (run_command_crashed w self cmd false _ _ Hreal Hsh).
      exists [EvPrint ("  Running " ++ name ++ "...");
              EvExecRaised cmd false e].
      cbn [fst snd]. split; [subst t1; rewrite <- !app_assoc; reflexivity|].
      right; right. exists e, [], cmd, (map snd rest). repeat split; auto.
Qed.

(** X1. In a real run the test stage is fail-fast over its four commands
    (unit tests, integration tests, lint, type check, in this order).  It
    returns true exactly when it ran all four and each exited 0; it
    returns false when one exited non-zero, having run the commands up to
    and including that one and none of the later ones; and it raises only
    when running one of the commands raised, the commands before it having
    exited 0 and none of the later ones having been run. *)
Theorem run_tests_fail_fast (w : World) (self : Pipeline) (t : Trace) :
  dry_run self = false ->
  exists d,
    snd (run_tests w self t) = (t ++ d)%list /\
    ((fst (run_tests w self t) = Ok true /\
      execs d =
        [ ("pytest tests/unit -v --cov=. --cov-report=xml", 0);
          ("pytest tests/integration -v", 0);
          ("flake8 . --count --select=E9,F63,F7,F82 --show-source --statistics", 0);
          ("mypy . --ignore-missing-imports", 0) ] /\
      raised d = []) \/
     (fst (run_tests w self t) = Ok false /\
      exists pre cmd rc post,
        [ "pytest tests/unit -v --cov=. --cov-report=xml";
          "pytest tests/integration -v";
          "flake8 . --count --select=E9,F63,F7,F82 --show-source --statistics";
          "mypy . --ignore-missing-imports" ] = (pre ++ cmd :: post)%list /\
        rc <> 0 /\
        execs d = (map (fun c => (c, 0)) pre ++ [(cmd, rc)])%list /\
        raised d = []) \/
     (exists e pre cmd post,
        fst (run_tests w self t) = Raise e /\
        [ "pytest tests/unit -v --cov=. --cov-report=xml";
          "pytest tests/integration -v";
          "flake8 . --count --select=E9,F63,F7,F82 --show-source --statistics";
          "mypy . --ignore-missing-imports" ] = (pre ++ cmd :: post)%list /\
        execs d = map (fun c => (c, 0)) pre /\
        raised d = [(cmd, e)])).
Proof.
  intros Hreal. unfold run_tests. cbv [bind print emit].
  destruct (run_tests_loop_spec w self Hreal tests
              (t ++ [EvPrint "🧪 Running test suite..."])%list)
    as [d [Hd Hres]].
  exists (EvPrint "🧪 Running test suite..." :: d).
  split; [rewrite Hd, <- app_assoc; reflexivity|].
  change (execs (EvPrint "🧪 Running test suite..." :: d)) with (execs d).
  change (raised (EvPrint "🧪 Running test suite..." :: d)) with (raised d).
  exact Hres.
Qed.

(** The integration tests fail: lint and type check are not run. *)
Lemma run_tests_fail_fast_witness :
  dry_run (Samples.pipeline "staging" false) = false /\
  fst (run_tests
         (Samples.failing "pytest tests/integration" 2 "1 failed" ""
            Samples.happy)
         (Samples.pipeline "staging" false) []) = Ok false /\
  execs (snd (run_tests
         (Samples.failing "pytest tests/integration" 2 "1 failed" ""
            Samples.happy)
         (Samples.pipeline "staging" false) [])) =
    [ ("pytest tests/unit -v --cov=. --cov-report=xml", 0);
      ("pytest tests/integration -v", 2) ].
Proof.
  split; [reflexivity|].
  destruct (run_tests_fail_fast
              (Samples.failing "pytest tests/integration" 2 "1 failed" ""
                 Samples.happy)
              (Samples.pipeline "staging" false) [] eq_refl)
    as [d [Hd _]].
  rewrite Hd. cbn [app]. vm_compute in Hd. subst d.
  split; vm_compute; reflexivity.
Defined.

(** ** Build *)


Lemma string_app_assoc (a b c : string) : (a ++ b) ++ c = a ++ b ++ c.
Proof. induction a as [|x a IH]; cbn [append]; congruence. Qed.

Lemma contains_char_app (c : ascii) (a b : string) :
  contains_char c (a ++ b) = contains_char c a || contains_char c b.
Proof.
  induction a as [|x a IH]; cbn [append contains_char orb]; [reflexivity|].
  now destruct (Ascii.eqb x c).
Qed.



(** X3. Build and manifest update agree when nothing contains a colon but
    the separator: if the registry, the service name and the revision tag
    are free of [:], the tag that [update_manifest] extracts from the
    reference [build_image] returned is the revision tag it was built
    with. *)
Theorem build_tag_round_trip (w : World) (self : Pipeline) (t t' : Trace)
    (full : string) :
  build_image w self t = (Ok full, t') ->
  contains_char ":" (getenv_default w "REGISTRY_URL" "registry.company.com")
    = false ->
  contains_char ":" (service_name self) = false ->
  contains_char ":"
    (take_chars 8
       (getenv_default w "GITHUB_SHA" (getoutput w t "git rev-parse HEAD")))
    = false ->
  extract_tag full =
    take_chars 8
      (getenv_default w "GITHUB_SHA" (getoutput w t "git rev-parse HEAD")).
Proof.
  intros Hrun Hreg Hsvc Hsha.
  set (sha := take_chars 8 _) in *.
  assert (Hfull : full = (getenv_default w "REGISTRY_URL" "registry.company.com"
                          ++ "/" ++ service_name self) ++ String ":" sha).
  { unfold build_image in Hrun. cbv [bind print emit ask ret raise] in Hrun.
    cbv zeta in Hrun. fold sha in Hrun.
    destruct (_run_command w self ("docker build -t " ++ _) true _)
      as [[[rc out]|e] t1]; [|discriminate Hrun].
    destruct (negb (rc =? 0)); [discriminate Hrun|].
    destruct (_run_command w self ("docker tag " ++ _) true t1)
      as [[[rc1 out1]|e1] t2]; [|discriminate Hrun].
    destruct (_run_command w self ("docker push " ++ _) true t2)
      as [[[rc2 out2]|e2] t3]; [|discriminate Hrun].
    injection Hrun as <- _.
    rewrite !string_app_assoc. reflexivity. }
  rewrite Hfull. apply extract_tag_second.
  - rewrite !contains_char_app, Hreg, Hsvc. reflexivity.
  - rewrite split_no_sep by exact Hsha. reflexivity.
Qed.

(** The default registry and an 8-character revision. *)
Lemma build_tag_round_trip_witness :
  extract_tag "registry.company.com/user-api:01234567" = "01234567" /\
  fst (build_image Samples.happy (Samples.pipeline "staging" false) [])
  = Ok "registry.company.com/user-api:01234567".
Proof.
  split; [|vm_compute; reflexivity].
  apply (build_tag_round_trip Samples.happy
           (Samples.pipeline "staging" false) []
           (snd (build_image Samples.happy
                   (Samples.pipeline "staging" false) []))
           "registry.company.com/user-api:01234567");
    vm_compute; reflexivity.
Defined.

(** ** ManifestUpdate: errors and the order of effects *)

(** X4. [update_doc] succeeds exactly on a mapping whose [image] entry is a
    mapping and whose [deployment] entry is absent or a mapping.  A mapping
    without [image] gives [KeyError: 'image']; an empty file (null), like
    any other non-mapping document, gives a [TypeError]; so does an [image]
    or a [deployment] entry that is not a mapping, for instance a
    [deployment:] key left empty. *)
Theorem update_doc_outcome (tag ts actor : string) (values : yaml) :
  ((exists doc, update_doc tag ts actor values = inr doc) <->
   (exists top img,
      values = YMap top /\
      dict_get "image" top = Some (YMap img) /\
      (dict_get "deployment" top = None \/
       exists dep, dict_get "deployment" top = Some (YMap dep)))) /\
  (forall top, values = YMap top -> dict_get "image" top = None ->
     update_doc tag ts actor values = inl (mkExn KeyError "'image'")) /\
  (forall e, update_doc tag ts actor values = inl e ->
     exn_class e = KeyError \/ exn_class e = TypeError) /\
  (values = YNull ->
   update_doc tag ts actor values
     = inl (mkExn TypeError "'NoneType' object is not subscriptable")) /\
  (forall top img,
     values = YMap top -> dict_get "image" top = Some (YMap img) ->
     dict_get "deployment" top = Some YNull ->
     update_doc tag ts actor values
       = inl (mkExn TypeError
                "'NoneType' object does not support item assignment")).
Proof.
  split; [|split; [|split; [|split]]].
  - split.
    + intros [doc H]. apply update_doc_inr in H
        as (top & img & depm & -> & Himg & Hdep & _).
      exists top, img. split; [reflexivity|]. split; [exact Himg|].
      destruct (dict_get "deployment" top) as [d|]; [right|left; reflexivity].
      subst d. exists depm. reflexivity.
    + intros (top & img & -> & Himg & Hdep). unfold update_doc.
      rewrite Himg. cbv zeta. rewrite dict_get_set_neq by discriminate.
      destruct Hdep as [->|[dep ->]]; eexists; reflexivity.
  - intros top -> Himg. unfold update_doc. now rewrite Himg.
  - intros e. unfold update_doc.
    destruct values as [| | | | | |top];
      try (intros H; injection H as <-; right; reflexivity).
    destruct (dict_get "image" top) as [[| | | | | |img]|];
      try (intros H; injection H as <-; right; reflexivity);
      [|intros H; injection H as <-; left; reflexivity].
    cbv zeta.
    destruct (match dict_get "deployment" _ with
              | Some d => d
              | None => YMap []
              end) as [| | | | | |depm];
      try (intros H; injection H as <-; right; reflexivity).
    discriminate.
  - intros ->. reflexivity.
  - intros top img -> Himg Hdep. unfold update_doc. rewrite Himg.
    cbv zeta. rewrite dict_get_set_neq by discriminate.
    rewrite Hdep. reflexivity.
Qed.

(** A manifest whose [deployment:] key is empty. *)
Lemma update_doc_outcome_witness :
  update_doc "01234567" "T+1" "alice"
    (YMap [("image", YMap [("tag", YStr "old")]); ("deployment", YNull)])
  = inl (mkExn TypeError
           "'NoneType' object does not support item assignment").
Proof.
  apply (proj2 (proj2 (proj2 (proj2
           (update_doc_outcome "01234567" "T+1" "alice"
              (YMap [("image", YMap [("tag", YStr "old")]);
                     ("deployment", YNull)])))))
           [("image", YMap [("tag", YStr "old")]); ("deployment", YNull)]
           [("tag", YStr "old")]); reflexivity.
Defined.





(** ** DeploymentWait and HealthVerify *)

(** The polling loop runs no command and writes no file.  When it returns
    true, the responses it received are unhealthy ones followed by one
    healthy response, the last; it slept once after each unhealthy attempt
    numbered below [max_retries - 1]. *)
Lemma health_loop_polls (w : World) (self : Pipeline) (mr : Z)
    (attempts : list Z) :
  forall t, exists d,
    snd (health_loop w self mr attempts t) = (t ++ d)%list /\
    execs d = [] /\ writes d = [] /\
    (fst (health_loop w self mr attempts t) = Ok (Some true) \/
     fst (health_loop w self mr attempts t) = Ok None) /\
    (fst (health_loop w self mr attempts t) = Ok (Some true) ->
     exists pre r,
       gets d = (pre ++ [r])%list /\ healthy r = true /\
       forallb unhealthy pre = true /\
       (length pre < length attempts)%nat /\
       sleeps d = map (fun _ => 10)
                    (filter (fun a => a <? mr - 1)
                       (firstn (length pre) attempts))).
Proof.
  induction attempts as [|a rest IH]; intro t.
  - exists []. cbn [health_loop]. cbv [ret]. cbn [fst snd].
    rewrite app_nil_r. repeat split; auto. discriminate.
  - rewrite health_loop_cons. cbv zeta.
    set (res := http_get w t _).
    destruct (healthy res) eqn:Hres.
    + eexists. cbn [fst snd]. split; [reflexivity|].
      repeat split; auto. intros _. exists [], res.
      cbn [app length firstn filter map]. repeat split; auto. lia.
    + set (step := ([EvHttpGet (service_url self ++ "/health") 10 res;
                      EvPrint (retry_line mr a res)]
                     ++ (if a <? mr - 1 then [EvSleep 10] else []))%list).
      destruct (IH (t ++ step)%list) as (d & Hd & He & Hw & Hor & Hok).
      exists (step ++ d)%list. rewrite Hd, app_assoc.
      split; [reflexivity|].
      rewrite execs_app, writes_app, He, Hw.
      assert (Hse : execs step = [] /\ writes step = [])
        by (subst step; destruct (a <? mr - 1); split; reflexivity).
      destruct Hse as [-> ->].
      repeat split; auto.
      intros Htrue. destruct (Hok Htrue) as (pre & r & Hg & Hr & Hpre & Hlen & Hs).
      exists (res :: pre), r.
      rewrite gets_app, sleeps_app, Hg, Hs.
      assert (Hg' : gets step = [res])
        by (subst step; destruct (a <? mr - 1); reflexivity).
      assert (Hs' : sleeps step = if a <? mr - 1 then [10] else [])
        by (subst step; destruct (a <? mr - 1); reflexivity).
      rewrite Hg', Hs'. cbn [app length firstn filter forallb].
      unfold unhealthy at 1. rewrite Hres, Hpre. cbn [negb andb].
      repeat split; auto; [lia|].
      destruct (a <? mr - 1); reflexivity.
Qed.

(** The polling loop runs no command, so none can fail to run. *)
Lemma health_loop_raised (w : World) (self : Pipeline) (mr : Z)
    (attempts : list Z) :
  forall t d,
    snd (health_loop w self mr attempts t) = (t ++ d)%list -> raised d = [].
Proof.
  induction attempts as [|a rest IH]; intros t d.
  - cbn [health_loop]. cbv [ret]. cbn [snd]. intros H.
    rewrite <- (app_nil_r t) in H at 1. apply app_inv_head in H.
    now subst d.
  - rewrite health_loop_cons. cbv zeta.
    destruct (healthy _).
    + cbn [snd]. intros H. apply app_inv_head in H. now subst d.
    + destruct (health_loop_polls w self mr rest
                  (t ++ [EvHttpGet (service_url self ++ "/health") 10
                           (http_get w t (service_url self ++ "/health"));
                         EvPrint (retry_line mr a
                           (http_get w t (service_url self ++ "/health")))]
                     ++ (if a <? mr - 1 then [EvSleep 10] else []))%list)
        as (d' & Hd' & _).
      intros H. pose proof (IH _ d' Hd') as Hr.
      rewrite H, <- app_assoc in Hd'.
      apply app_inv_head in Hd'. subst d.
      rewrite !raised_app, Hr.
      destruct (a <? mr - 1); reflexivity.
Qed.

(** X6. In a real run [wait_for_deployment] asks the cluster for the
    rollout status first, and that is the only command it runs.  When the
    command cannot be run, its exception is raised and the health endpoint
    is not polled.  When it exits non-zero the stage returns false without
    polling the health endpoint or sleeping; the stage returns true only
    when the rollout command exited 0 and a health request was then
    answered with status 200.  With the command completed, the stage
    returns true or false and does not raise. *)
Theorem wait_for_deployment_spec (w : World) (self : Pipeline) (timeout : Z)
    (t : Trace) :
  dry_run self = false ->
  let cmd := rollout_status_cmd self timeout in
  let t1 :=
    (t ++ [EvPrint ("⏳ Waiting for " ++ service_name self
                    ++ " deployment (timeout: "
                    ++ str_of_Z timeout ++ "s)...")])%list in
  exists d,
    snd (wait_for_deployment w self timeout t) = (t ++ d)%list /\
    match shell w t1 cmd with
    | Crashed e =>
        fst (wait_for_deployment w self timeout t) = Raise e /\
        execs d = [] /\ raised d = [(cmd, e)] /\
        gets d = [] /\ sleeps d = []
    | Completed r =>
        execs d = [(cmd, returncode r)] /\ raised d = [] /\
        (fst (wait_for_deployment w self timeout t) = Ok true \/
         fst (wait_for_deployment w self timeout t) = Ok false) /\
        (returncode r <> 0 ->
         fst (wait_for_deployment w self timeout t) = Ok false /\
         gets d = [] /\ sleeps d = []) /\
        (fst (wait_for_deployment w self timeout t) = Ok true ->
         returncode r = 0 /\ existsb healthy (gets d) = true)
    end.
Proof.
  intros Hreal. cbv zeta. unfold wait_for_deployment.
  cbv [bind print emit ret]. rewrite Hreal.
  set (t1 := (t ++ [EvPrint _])%list).
  destruct (shell w t1 (rollout_status_cmd self timeout)) as [sr|e] eqn:Hs.
  - rewrite (run_command_completed w self _ false _ _ Hreal Hs). cbn [andb].
    set (rc := returncode sr).
    destruct (rc =? 0) eqn:Hrc; cbn [negb]; cbv beta iota.
    + apply Z.eqb_eq in Hrc.
      unfold _verify_health. rewrite Hreal. cbv [bind print emit ret].
      cbv zeta.
      set (t2 := (((t1 ++ [EvExec (rollout_status_cmd self timeout) false rc])
                    ++ [EvPrint "✅ Deployment completed successfully"])
                    ++ [EvPrint ("🏥 Verifying service health: "
                                 ++ service_url self ++ "/health")])%list).
      destruct (health_loop_polls w self 5 (range 5) t2)
        as (d & Hd & He & _ & Hor & Hok).
      pose proof (health_loop_raised w self 5 (range 5) t2 d Hd) as Hra.
      destruct (health_loop w self 5 (range 5) t2) as [r t'].
      cbn [fst snd] in Hd, Hor, Hok. subst t'.
      set (pre := [EvPrint ("⏳ Waiting for " ++ service_name self
                            ++ " deployment (timeout: "
                            ++ str_of_Z timeout ++ "s)...");
                   EvExec (rollout_status_cmd self timeout) false rc;
                   EvPrint "✅ Deployment completed successfully";
                   EvPrint ("🏥 Verifying service health: "
                            ++ service_url self ++ "/health")]).
      assert (Ht2 : t2 = (t ++ pre)%list)
        by (subst t2 t1 pre; rewrite <- !app_assoc; reflexivity).
      destruct Hor as [Hr|Hr]; subst r; cbn [fst snd].
      * exists (pre ++ d)%list. rewrite Ht2, app_assoc.
        split; [reflexivity|]. rewrite execs_app, raised_app, gets_app, He, Hra.
        split; [reflexivity|]. split; [reflexivity|]. split; [auto|].
        split; [intros Hne; contradiction|]. intros _.
        split; [exact Hrc|].
        destruct (Hok eq_refl) as (g & r & Hg & Hh & _).
        rewrite Hg. cbn [gets pre flat_map app].
        rewrite existsb_app. cbn [existsb]. rewrite Hh.
        now rewrite orb_true_r.
      * exists (pre ++ d ++ [EvPrint "❌ Health check failed after maximum retries"])%list.
        rewrite Ht2, <- !app_assoc.
        split; [reflexivity|]. rewrite !execs_app, !raised_app, He, Hra.
        split; [reflexivity|]. split; [reflexivity|]. split; [auto|].
        split; [intros Hne; contradiction | discriminate].
    + apply Z.eqb_neq in Hrc. cbn [fst snd].
      eexists [_; _; _]. subst t1. rewrite <- !app_assoc.
      split; [reflexivity|]. split; [reflexivity|]. split; [reflexivity|].
      split; [auto|].
      split; [intros _; repeat split; reflexivity | discriminate].
  - rewrite (run_command_crashed w self _ false _ _ Hreal Hs).
    cbn [fst snd]. eexists [_; _]. subst t1. rewrite <- !app_assoc.
    split; [reflexivity|]. repeat split; reflexivity.
Qed.

(** The rollout times out. *)
Lemma wait_for_deployment_spec_witness :
  dry_run (Samples.pipeline "staging" false) = false /\
  fst (wait_for_deployment
         (Samples.failing "kubectl rollout status" 1 "timed out" ""
            Samples.happy)
         (Samples.pipeline "staging" false) 600 []) = Ok false /\
  gets (snd (wait_for_deployment
         (Samples.failing "kubectl rollout status" 1 "timed out" ""
            Samples.happy)
         (Samples.pipeline "staging" false) 600 [])) = [].
Proof.
  split; [reflexivity|].
  destruct (wait_for_deployment_spec
              (Samples.failing "kubectl rollout status" 1 "timed out" ""
                 Samples.happy)
              (Samples.pipeline "staging" false) 600 [] eq_refl)
    as (d & Hd & H).
  rewrite Hd. cbn [app]. cbv zeta in H. vm_compute shell in H.
  destruct H as (_ & _ & _ & Hfail & _).
  destruct Hfail as (Hf & Hg & _); [vm_compute; discriminate|].
  split; assumption.
Defined.

(** X7. When health verification succeeds in a real run, it stopped at the
    first healthy response: the responses received are at most 4 unhealthy
    ones followed by the healthy one, and it slept 10 seconds once per
    unhealthy response, so not after the successful attempt. *)
Theorem verify_health_stops_at_success (w : World) (self : Pipeline)
    (t : Trace) :
  dry_run self = false ->
  fst (_verify_health w self t) = Ok true ->
  exists d pre r,
    snd (_verify_health w self t) = (t ++ d)%list /\
    gets d = (pre ++ [r])%list /\
    healthy r = true /\ forallb unhealthy pre = true /\
    (length pre <= 4)%nat /\
    sleeps d = repeat 10 (length pre).
Proof.
  intros Hreal. unfold _verify_health. rewrite Hreal.
  cbv [bind print emit ret]. cbv zeta.
  set (t0 := (t ++ [EvPrint _])%list).
  destruct (health_loop_polls w self 5 (range 5) t0)
    as (d & Hd & _ & _ & Hor & Hok).
  destruct (health_loop w self 5 (range 5) t0) as [r t'].
  cbn [fst snd] in Hd, Hor, Hok. subst t'.
  destruct Hor as [Hr|Hr]; subst r; cbn [fst snd];
    [|discriminate].
  intros _. destruct (Hok eq_refl) as (pre & r & Hg & Hh & Hpre & Hlen & Hs).
  exists (EvPrint ("🏥 Verifying service health: " ++ service_url self
                   ++ "/health") :: d), pre, r.
  subst t0. rewrite <- app_assoc. split; [reflexivity|].
  change (gets (EvPrint ("🏥 Verifying service health: "
            ++ service_url self ++ "/health") :: d)) with (gets d).
  change (sleeps (EvPrint ("🏥 Verifying service health: "
            ++ service_url self ++ "/health") :: d)) with (sleeps d).
  split; [exact Hg|]. split; [exact Hh|]. split; [exact Hpre|].
  change (length (range 5)) with 5%nat in Hlen.
  split; [lia|]. rewrite Hs.
  destruct (length pre) as [|[|[|[|[|n]]]]]; try reflexivity. lia.
Qed.

(** The endpoint answers 503 twice, then 200. *)
Lemma verify_health_stops_at_success_witness :
  exists d,
    snd (_verify_health
           (Samples.with_http
              (fun t _ => if (length (gets t) <? 2)%nat
                          then Response 503 "starting"
                          else Response 200 "OK")
              (fun _ _ _ _ => Response 200 "ok") Samples.happy)
           (Samples.pipeline "staging" false) []) = ([] ++ d)%list /\
    gets d = [Response 503 "starting"; Response 503 "starting";
              Response 200 "OK"] /\
    sleeps d = [10; 10].
Proof.
  destruct (verify_health_stops_at_success
              (Samples.with_http
                 (fun t _ => if (length (gets t) <? 2)%nat
                             then Response 503 "starting"
                             else Response 200 "OK")
                 (fun _ _ _ _ => Response 200 "ok") Samples.happy)
              (Samples.pipeline "staging" false) [] eq_refl)
    as (d & pre & r & Hd & _); [vm_compute; reflexivity|].
  exists d. split; [exact Hd|].
  vm_compute in Hd. subst d. split; vm_compute; reflexivity.
Defined.

(** ** How a run ends *)

Section EndsRules.

Context {A B : Type} (P : Event -> Prop).

(** A computation whose events all satisfy [P], followed by one that ends
    in [Q], ends in [Q] when [Q] is not affected by [P]-events before. *)
Lemma Ends_bind (Q : Res B -> Trace -> Prop) (m : M A) (k : A -> M B) :
  Emits P m ->
  (forall e d0, Forall P d0 -> Q (Raise e) d0) ->
  (forall r d0 d, Forall P d0 -> Q r d -> Q r (d0 ++ d)%list) ->
  (forall a, Ends Q (k a)) ->
  Ends Q (bind m k).
Proof.
  intros Hm Hraise Hstable Hk t. unfold bind.
  destruct (Hm t) as [d0 [Hd0 HP]].
  destruct (m t) as [[a|e] t']; cbn [snd] in Hd0; subst t'.
  - destruct (Hk a (t ++ d0)%list) as [d [Hd HQ]].
    exists (d0 ++ d)%list. rewrite Hd, app_assoc. split; [reflexivity|].
    apply Hstable; assumption.
  - exists d0. cbn [fst snd]. split; [reflexivity|]. apply Hraise, HP.
Qed.

End EndsRules.

Lemma Ends_try {A} (Q Q' : Res A -> Trace -> Prop) (m : M A)
    (h : Exn -> M A) :
  Ends Q m ->
  (forall a d, Q (Ok a) d -> Q' (Ok a) d) ->
  (forall e d0 t, Q (Raise e) d0 ->
     exists d, snd (h e (t ++ d0)%list) = ((t ++ d0) ++ d)%list /\
               Q' (fst (h e (t ++ d0)%list)) (d0 ++ d)%list) ->
  Ends Q' (try_except m h).
Proof.
  intros Hm Hok Hh t. unfold try_except.
  destruct (Hm t) as [d0 [Hd0 HQ]].
  destruct (m t) as [[a|e] t']; cbn [fst snd] in Hd0, HQ; subst t'.
  - exists d0. cbn [fst snd]. split; [reflexivity|]. apply Hok, HQ.
  - destruct (Hh e d0 t HQ) as [d [Hd HQ']].
    exists (d0 ++ d)%list. rewrite Hd, app_assoc. split; [reflexivity|].
    exact HQ'.
Qed.

(** ** Notification: once per run *)

Lemma no_slack_bodies (d : Trace) : Forall no_slack d -> slack_bodies d = [].
Proof.
  induction 1 as [|e d He _ IH]; [reflexivity|].
  unfold slack_bodies in *. cbn [flat_map]. rewrite IH, app_nil_r.
  destruct e as [| | | | | | | |url bearer [prune dr|] res|]; try reflexivity.
  destruct He.
Qed.

Lemma stage_event_no_slack (self : Pipeline) (e : Event) :
  stage_event self e -> no_slack e.
Proof.
  destruct e as [| | | | | | | |url bearer [prune dr|] res|];
    cbn [stage_event no_slack]; tauto.
Qed.

(** What [send_notification] posts. *)
Lemma send_notification_posts (w : World) (self : Pipeline) (success : bool)
    (message : string) (t : Trace) :
  exists d,
    send_notification w self success message t = (Ok tt, (t ++ d)%list) /\
    slack_bodies d =
      if truthy (getenv w "SLACK_WEBHOOK_URL")
      then [slack_payload self success message
              (now w t - deployment_start self)]
      else [].
Proof.
  unfold send_notification, requests_post.
  destruct (getenv w "SLACK_WEBHOOK_URL") as [url|]; cbn [truthy].
  - destruct (url =? "")%string; cbn [negb].
    + exists []. cbv [ret]. rewrite app_nil_r. auto.
    + cbv [bind print emit ret ask]. cbv zeta.
      destruct (http_post w t url None _) as [code text|err].
      * eexists [_]. split; reflexivity.
      * eexists [_; _]. rewrite <- app_assoc. split; reflexivity.
  - exists []. cbv [ret]. rewrite app_nil_r. auto.
Qed.

Section NotifiedOnce.

Variables (w : World) (self : Pipeline).

Lemma notified_once_raise (e : Exn) (d0 : Trace) :
  Forall no_slack d0 -> notified_once w self (Raise e) d0.
Proof. apply no_slack_bodies. Qed.

Lemma notified_once_stable (r : Res bool) (d0 d : Trace) :
  Forall no_slack d0 -> notified_once w self r d ->
  notified_once w self r (d0 ++ d)%list.
Proof.
  intros H0. unfold notified_once.
  rewrite slack_bodies_app, (no_slack_bodies _ H0). exact (fun H => H).
Qed.

(** The way every branch of [deploy] ends: notify, then return. *)
Lemma notify_leaf (b : bool) (message : string) :
  Ends (notified_once w self) (send_notification w self b message ;;; ret b).
Proof.
  intro t. cbv [bind ret].
  destruct (send_notification_posts w self b message t) as [d [-> Hd]].
  exists d. cbn [fst snd notified_once]. split; [reflexivity|].
  eexists _, _. exact Hd.
Qed.

Lemma stage_no_slack {A} (m : M A) :
  Emits (stage_event self) m -> Emits no_slack m.
Proof. apply Emits_weaken. apply stage_event_no_slack. Qed.

Lemma rollback_no_slack : Emits no_slack (rollback w self).
Proof.
  unfold rollback. emits; try exact I.
  apply Emits_run_command; intros; exact I.
Qed.

Ltac quiet_prefix :=
  first [ apply stage_no_slack;
          first [ apply run_tests_events
                | apply build_image_events
                | apply security_scan_events
                | apply update_manifest_events
                | apply trigger_argocd_sync_events
                | apply wait_for_deployment_events ]
        | apply rollback_no_slack
        | apply Emits_emit; exact I
        | apply Emits_ask ].

Ltac ends_once :=
  repeat lazymatch goal with
    | |- Ends _ (bind (send_notification _ _ _ _) _) => apply notify_leaf
    | |- Ends _ (bind _ _) =>
        apply (Ends_bind no_slack);
        [ quiet_prefix
        | apply notified_once_raise
        | apply notified_once_stable
        | intro ]
    | |- Ends _ (match ?x with _ => _ end) => destruct x
    end.

Lemma deploy_body_notifies : Ends (notified_once w self) (deploy_body w self).
Proof. unfold deploy_body. ends_once. Qed.

Lemma deploy_notifies :
  Ends (returned_notified_once w self) (deploy w self).
Proof.
  intro t. rewrite deploy_unfold.
  destruct (Ends_try (notified_once w self) (returned_notified_once w self)
              (deploy_body w self)
              (fun e =>
                 print (nl ++ "❌ Deployment failed with error: " ++ exn_msg e) ;;;
                 send_notification w self false
                   ("Deployment error: " ++ exn_msg e) ;;;
                 ret false)
              deploy_body_notifies) with (t := (t ++ banner self)%list)
    as [d [Hd HQ]].
  - intros a d H. exact H.
  - intros e d0 t' Hnone. cbv [bind print emit ret].
    destruct (send_notification_posts w self false
                ("Deployment error: " ++ exn_msg e)
                ((t' ++ d0) ++ [EvPrint (nl ++ "❌ Deployment failed with error: "
                                         ++ exn_msg e)])%list)
      as [d [-> Hd]].
    exists (EvPrint (nl ++ "❌ Deployment failed with error: " ++ exn_msg e)
            :: d).
    cbn [fst snd]. rewrite <- !app_assoc. split; [reflexivity|].
    cbn [returned_notified_once notified_once] in *.
    rewrite slack_bodies_app, Hnone. eexists _, _. exact Hd.
  - exists (banner self ++ d)%list. rewrite Hd, app_assoc.
    split; [reflexivity|].
    destruct (fst (try_except _ _ _)) as [b|e]; [|exact HQ].
    cbn [returned_notified_once] in *.
    apply notified_once_stable; [|exact HQ].
    unfold banner. repeat constructor.
Qed.

End NotifiedOnce.

(** X8. [deploy] never raises, and on every path it notifies exactly once:
    when [SLACK_WEBHOOK_URL] is set and not empty the run posts exactly one
    Slack body, and its colour and title are those of the result that
    [deploy] returns; otherwise it posts none. *)
Theorem deploy_notifies_once (w : World) (self : Pipeline) (t : Trace) :
  exists b d,
    deploy w self t = (Ok b, (t ++ d)%list) /\
    (truthy (getenv w "SLACK_WEBHOOK_URL") = false -> slack_bodies d = []) /\
    (truthy (getenv w "SLACK_WEBHOOK_URL") = true ->
     exists duration status,
       slack_bodies d =
         [SlackBody (if b then "good" else "danger")
            (if b then "✅ Deployment Succeeded" else "❌ Deployment Failed")
            (service_name self) (environment self) duration status]).
Proof.
  destruct (deploy_notifies w self t) as [d [Hd HQ]].
  destruct (deploy w self t) as [[b|e] t']; cbn [fst snd] in Hd, HQ;
    [|contradiction].
  subst t'. exists b, d. split; [reflexivity|].
  cbn [returned_notified_once notified_once] in HQ.
  destruct HQ as (message & duration & HQ). rewrite HQ.
  split; intros Hhook; rewrite Hhook; [reflexivity|].
  exists (str_of_Z duration ++ "s"), message.
  unfold slack_payload. destruct b; reflexivity.
Qed.

(** ** Rollback: only after a failed verification *)

Section UndoBound.

Variables (w : World) (self : Pipeline).

Lemma undo_bound_raise (e : Exn) (d0 : Trace) :
  Forall (stage_event self) d0 -> undo_bound self (Raise e) d0.
Proof.
  intros H. unfold undo_bound. rewrite (stage_events_no_undo self _ H). lia.
Qed.

Lemma undo_bound_stable (r : Res bool) (d0 d : Trace) :
  Forall (stage_event self) d0 -> undo_bound self r d ->
  undo_bound self r (d0 ++ d)%list.
Proof.
  intros H0. unfold undo_bound.
  rewrite count_undo_app, (stage_events_no_undo self _ H0).
  exact (fun H => H).
Qed.

Lemma undo_bound_notify (b : bool) (message : string) :
  Ends (undo_bound self) (send_notification w self b message ;;; ret b).
Proof.
  intro t. cbv [bind ret].
  destruct (send_notification_spec w self b message t) as [d [-> Hd]].
  exists d. cbn [fst snd]. split; [reflexivity|].
  pose proof (notif_events_no_undo self _ _ Hd) as H0.
  unfold undo_bound. destruct b; lia.
Qed.

(** The rollback branch runs the undo command at most once. *)
Lemma undo_bound_rollback (message : string) :
  Ends (undo_bound self)
    (rollback w self ;;; send_notification w self false message ;;; ret false).
Proof.
  intro t. cbv [bind ret].
  assert (Hrb : exists r d, rollback w self t = (r, (t ++ d)%list) /\
                            (count_undo self d <= 1)%nat).
  { destruct (dry_run self) eqn:Hdry.
    - unfold rollback. cbv [bind print emit ret].
      rewrite (run_command_dry w self _ false _ Hdry).
      cbn [Z.eqb]. cbv beta iota. rewrite <- !app_assoc. cbn [app].
      eexists _, [_; _; _]. split; [reflexivity|].
      unfold count_undo. cbn. lia.
    - pose proof (rollback_spec w self t Hdry) as Hspec.
      destruct (shell w _ (rollback_cmd self)) as [sr|e]; rewrite Hspec;
        eexists _, _; (split; [reflexivity|]);
        unfold count_undo; cbn [filter is_undo length];
        rewrite String.eqb_refl; cbn [length]; lia. }
  destruct Hrb as (rb & d1 & -> & Hc).
  destruct rb as [b|e].
  - destruct (send_notification_spec w self false message (t ++ d1)%list)
      as [d2 [-> Hd2]].
    exists (d1 ++ d2)%list. cbn [fst snd]. rewrite app_assoc.
    split; [reflexivity|].
    unfold undo_bound. rewrite count_undo_app.
    rewrite (notif_events_no_undo self _ _ Hd2). lia.
  - exists d1. cbn [fst snd]. split; [reflexivity|]. exact Hc.
Qed.

Ltac stage_prefix :=
  first [ apply run_tests_events
        | apply build_image_events
        | apply security_scan_events
        | apply update_manifest_events
        | apply trigger_argocd_sync_events
        | apply wait_for_deployment_events
        | apply Emits_emit; exact I
        | apply Emits_ask ].

Ltac ends_undo :=
  repeat lazymatch goal with
    | |- Ends _ (bind (send_notification _ _ _ _) _) =>
        apply undo_bound_notify
    | |- Ends _ (bind (rollback _ _) _) => apply undo_bound_rollback
    | |- Ends _ (bind _ _) =>
        apply (Ends_bind (stage_event self));
        [ stage_prefix
        | apply undo_bound_raise
        | apply undo_bound_stable
        | intro ]
    | |- Ends _ (match ?x with _ => _ end) => destruct x
    end.

Lemma deploy_body_undo_bound : Ends (undo_bound self) (deploy_body w self).
Proof. unfold deploy_body. ends_undo. Qed.

Lemma deploy_undo_bound : Ends (undo_bound self) (deploy w self).
Proof.
  intro t. rewrite deploy_unfold.
  destruct (Ends_try (undo_bound self) (undo_bound self)
              (deploy_body w self)
              (fun e =>
                 print (nl ++ "❌ Deployment failed with error: " ++ exn_msg e) ;;;
                 send_notification w self false
                   ("Deployment error: " ++ exn_msg e) ;;;
                 ret false)
              deploy_body_undo_bound) with (t := (t ++ banner self)%list)
    as [d [Hd HQ]].
  - intros a d H. exact H.
  - intros e d0 t' H0. cbv [bind print emit ret].
    destruct (send_notification_spec w self false
                ("Deployment error: " ++ exn_msg e)
                ((t' ++ d0) ++ [EvPrint (nl ++ "❌ Deployment failed with error: "
                                         ++ exn_msg e)])%list)
      as [d [-> Hd]].
    exists (EvPrint (nl ++ "❌ Deployment failed with error: " ++ exn_msg e)
            :: d).
    cbn [fst snd]. rewrite <- !app_assoc. split; [reflexivity|].
    cbn [undo_bound] in *. rewrite count_undo_app.
    change (count_undo self (EvPrint (nl ++ "❌ Deployment failed with error: "
                                      ++ exn_msg e) :: d))
      with (count_undo self d).
    rewrite (notif_events_no_undo self _ _ Hd). lia.
  - exists (banner self ++ d)%list. rewrite Hd, app_assoc.
    split; [reflexivity|].
    apply undo_bound_stable; [|exact HQ].
    unfold banner. repeat constructor.
Qed.

End UndoBound.

(** X9. Whatever the world does, one run of [deploy] executes the rollback
    command at most once, and not at all when it returns true: a
    successful deployment is never rolled back. *)
Theorem deploy_rolls_back_at_most_once (w : World) (self : Pipeline)
    (t : Trace) :
  exists d,
    snd (deploy w self t) = (t ++ d)%list /\
    (count_undo self d <= 1)%nat /\
    (fst (deploy w self t) = Ok true -> count_undo self d = 0%nat).
Proof.
  destruct (deploy_undo_bound w self t) as [d [Hd HQ]].
  exists d. split; [exact Hd|].
  unfold undo_bound in HQ.
  destruct (fst (deploy w self t)) as [[|]|e]; split; try lia;
    intros H; try exact HQ; discriminate.
Qed.

(** ** Stage failures end the run *)

Section EarlyExit.

Variables (w : World) (self : Pipeline).

Lemma run_command_not_deploying (cmd : string) (check : bool) :
  Emits not_deploying (_run_command w self cmd check).
Proof. apply Emits_run_command; intros; exact I. Qed.

Lemma run_tests_not_deploying : Emits not_deploying (run_tests w self).
Proof.
  unfold run_tests, tests. cbn [run_tests_loop].
  emits; first [exact I | apply run_command_not_deploying].
Qed.

Lemma build_image_not_deploying : Emits not_deploying (build_image w self).
Proof.
  unfold build_image.
  emits; first [exact I | apply run_command_not_deploying].
Qed.

Lemma security_scan_not_deploying (image_tag : string) :
  Emits not_deploying (security_scan w self image_tag).
Proof.
  unfold security_scan.
  emits; first [exact I | apply run_command_not_deploying].
Qed.

End EarlyExit.

(** X10. A stage that returns false ends the run: [deploy] returns false
    and all that follows the stage is the notification naming it ("Tests
    failed", "Security scan failed", "Failed to trigger ArgoCD sync"); no
    later stage runs and nothing is rolled back.  When the tests or the
    scan fail, the whole run has written no manifest and requested no
    sync. *)
Theorem failed_stage_ends_run (w : World) (self : Pipeline) (t0 : Trace) :
  (forall t1,
     run_tests w self (t0 ++ banner self)%list = (Ok false, t1) ->
     exists d1 d,
       t1 = (t0 ++ banner self ++ d1)%list /\ Forall not_deploying d1 /\
       deploy w self t0 = (Ok false, (t1 ++ d)%list) /\
       Forall (notif_event "Tests failed") d) /\
  (forall t1 t2 t3 img,
     run_tests w self (t0 ++ banner self)%list = (Ok true, t1) ->
     build_image w self t1 = (Ok img, t2) ->
     security_scan w self img t2 = (Ok false, t3) ->
     exists d3 d,
       t3 = (t0 ++ banner self ++ d3)%list /\ Forall not_deploying d3 /\
       deploy w self t0 = (Ok false, (t3 ++ d)%list) /\
       Forall (notif_event "Security scan failed") d) /\
  (forall t1 t2 t3 t4 t5 img,
     run_tests w self (t0 ++ banner self)%list = (Ok true, t1) ->
     build_image w self t1 = (Ok img, t2) ->
     security_scan w self img t2 = (Ok true, t3) ->
     update_manifest w self img t3 = (Ok tt, t4) ->
     trigger_argocd_sync w self t4 = (Ok false, t5) ->
     exists d,
       deploy w self t0 = (Ok false, (t5 ++ d)%list) /\
       Forall (notif_event "Failed to trigger ArgoCD sync") d).
Proof.
  split; [|split].
  - intros t1 H1.
    destruct (Emits_run _ _ _ _ _ (run_tests_not_deploying w self) H1)
      as [d1 [E1 F1]].
    destruct (send_notification_spec w self false "Tests failed" t1)
      as [d [Hn Fn]].
    exists d1, d. rewrite <- app_assoc in E1.
    split; [exact E1|]. split; [exact F1|]. split; [|exact Fn].
    rewrite deploy_unfold. unfold try_except, deploy_body. cbv [bind].
    rewrite H1. cbn [negb]. cbv beta iota. rewrite Hn. reflexivity.
  - intros t1 t2 t3 img H1 H2 H3.
    destruct (Emits_run _ _ _ _ _ (run_tests_not_deploying w self) H1)
      as [d1 [E1 F1]].
    destruct (Emits_run _ _ _ _ _ (build_image_not_deploying w self) H2)
      as [d2 [E2 F2]].
    destruct (Emits_run _ _ _ _ _ (security_scan_not_deploying w self img) H3)
      as [d3 [E3 F3]].
    destruct (send_notification_spec w self false "Security scan failed" t3)
      as [d [Hn Fn]].
    exists (d1 ++ d2 ++ d3)%list, d.
    split; [rewrite E3, E2, E1, <- !app_assoc; reflexivity|].
    split; [repeat (apply Forall_app; split); assumption|].
    split; [|exact Fn].
    rewrite deploy_unfold. unfold try_except, deploy_body. cbv [bind].
    rewrite H1. cbn [negb]. cbv beta iota. rewrite H2. cbv beta iota.
    rewrite H3. cbn [negb]. cbv beta iota. rewrite Hn. reflexivity.
  - intros t1 t2 t3 t4 t5 img H1 H2 H3 H4 H5.
    destruct (send_notification_spec w self false
                "Failed to trigger ArgoCD sync" t5) as [d [Hn Fn]].
    exists d. split; [|exact Fn].
    rewrite deploy_unfold. unfold try_except, deploy_body. cbv [bind].
    rewrite H1. cbn [negb]. cbv beta iota. rewrite H2. cbv beta iota.
    rewrite H3. cbn [negb]. cbv beta iota. rewrite H4. cbv beta iota.
    rewrite H5. cbn [negb]. cbv beta iota. rewrite Hn. reflexivity.
Qed.

(** The unit tests fail in a production run. *)
Lemma failed_stage_ends_run_witness :
  fst (deploy (Samples.failing "pytest tests/unit" 1 "2 failed" ""
                 Samples.happy)
         (Samples.pipeline "production" false) []) = Ok false.
Proof.
  pose (W := Samples.failing "pytest tests/unit" 1 "2 failed" ""
               Samples.happy).
  pose (S := Samples.pipeline "production" false).
  destruct (proj1 (failed_stage_ends_run W S [])
              (snd (run_tests W S ([] ++ banner S)%list)))
    as (d1 & d & _ & _ & Hd & _); [vm_compute; reflexivity|].
  fold W S. rewrite Hd. reflexivity.
Defined.

(** X11. An exception raised by a stage is caught by [deploy]: the run
    returns false, prints the error and notifies "Deployment error: "
    followed by the exception text, and does nothing else.  So a failed
    [docker build] is reported with the build's error output, and a
    missing manifest with its path, after the image has been built and
    scanned; in both cases no sync is requested. *)
Theorem stage_exception_ends_run (w : World) (self : Pipeline) (t0 : Trace) :
  (forall t1 t2 e,
     run_tests w self (t0 ++ banner self)%list = (Ok true, t1) ->
     build_image w self t1 = (Raise e, t2) ->
     exists d,
       deploy w self t0 =
         (Ok false,
          (t2 ++ EvPrint (nl ++ "❌ Deployment failed with error: "
                          ++ exn_msg e) :: d)%list) /\
       Forall (notif_event ("Deployment error: " ++ exn_msg e)) d) /\
  (forall t1 t2 t3 img,
     run_tests w self (t0 ++ banner self)%list = (Ok true, t1) ->
     build_image w self t1 = (Ok img, t2) ->
     security_scan w self img t2 = (Ok true, t3) ->
     path_exists w t3 (manifest_path self) = false ->
     exists d,
       deploy w self t0 =
         (Ok false,
          (t3 ++ EvPathExists (manifest_path self) false
              :: EvPrint (nl ++ "❌ Deployment failed with error: "
                          ++ "Manifest not found: " ++ manifest_path self)
              :: d)%list) /\
       Forall (notif_event ("Deployment error: Manifest not found: "
                            ++ manifest_path self)) d).
Proof.
  split.
  - intros t1 t2 e H1 H2.
    destruct (send_notification_spec w self false
                ("Deployment error: " ++ exn_msg e)
                (t2 ++ [EvPrint (nl ++ "❌ Deployment failed with error: "
                                 ++ exn_msg e)])%list) as [d [Hn Fn]].
    exists d. split; [|exact Fn].
    rewrite deploy_unfold. unfold try_except, deploy_body. cbv [bind].
    rewrite H1. cbn [negb]. cbv beta iota. rewrite H2.
    cbv [print emit ret]. rewrite Hn. rewrite <- app_assoc. reflexivity.
  - intros t1 t2 t3 img H1 H2 H3 Hno.
    set (msg := "Manifest not found: " ++ manifest_path self).
    assert (H4 : update_manifest w self img t3 =
                   (Raise (mkExn FileNotFoundError msg),
                    (t3 ++ [EvPathExists (manifest_path self) false])%list)).
    { unfold update_manifest. cbv [bind emit ask raise].
      rewrite Hno. reflexivity. }
    destruct (send_notification_spec w self false
                ("Deployment error: " ++ msg)
                ((t3 ++ [EvPathExists (manifest_path self) false])
                   ++ [EvPrint (nl ++ "❌ Deployment failed with error: "
                                ++ msg)])%list) as [d [Hn Fn]].
    exists d. split; [|exact Fn].
    rewrite deploy_unfold. unfold try_except, deploy_body. cbv [bind].
    rewrite H1. cbn [negb]. cbv beta iota. rewrite H2. cbv beta iota.
    rewrite H3. cbn [negb]. cbv beta iota. rewrite H4.
    cbv [print emit ret]. cbn [exn_msg]. fold msg. rewrite Hn.
    rewrite <- !app_assoc. reflexivity.
Qed.

(** A staging run in a checkout without [deploy/staging/values.yaml]. *)
Lemma stage_exception_ends_run_witness :
  fst (deploy (Samples.with_files
                 (fun p => negb (p =? "deploy/staging/values.yaml")%string)
                 (fun _ => Parsed Samples.manifest) Samples.happy)
         (Samples.pipeline "staging" false) []) = Ok false.
Proof.
  pose (W := Samples.with_files
               (fun p => negb (p =? "deploy/staging/values.yaml")%string)
               (fun _ => Parsed Samples.manifest) Samples.happy).
  pose (S := Samples.pipeline "staging" false).
  pose (img := "registry.company.com/user-api:01234567").
  pose (t1 := snd (run_tests W S ([] ++ banner S)%list)).
  pose (t2 := snd (build_image W S t1)).
  pose (t3 := snd (security_scan W S img t2)).
  destruct (proj2 (stage_exception_ends_run W S []) t1 t2 t3 img)
    as (d & Hd & _); [vm_compute; reflexivity ..|].
  fold W S. rewrite Hd. reflexivity.
Defined.

(** ** Exit status *)

(** Once the arguments are parsed, [main] exits with status 0 or 1; the
    status is 0 exactly when a service name was given, the pipeline was
    constructed and [deploy] returned true; an exception is uncaught only
    when constructing the pipeline raised it. *)
Lemma main_parsed_outcome (w : World) (service : option string)
    (env : string) (dry : bool) (t : Trace) :
  (exit_status (fst (main w service env dry t)) = 0 \/
   exit_status (fst (main w service env dry t)) = 1) /\
  (exit_status (fst (main w service env dry t)) = 0 <->
   exists svc p t1 t2,
     service = Some svc /\ svc <> "" /\
     init w svc env dry t = (Ok p, t1) /\
     deploy w p t1 = (Ok true, t2)) /\
  (forall e, fst (main w service env dry t) = Traceback e ->
     exists svc t1,
       service = Some svc /\ init w svc env dry t = (Raise e, t1)) /\
  (truthy service = false ->
   main w service env dry t =
     (Exited 1,
      (t ++ [EvPrint "❌ Error: SERVICE_NAME must be provided via --service or environment variable"])%list)).
Proof.
  destruct service as [[|c svc]|]; cbn [truthy String.eqb negb].
  - cbn [main fst exit_status]. repeat split; auto; try discriminate.
    intros (svc & p & t1 & t2 & H & Hne & _). injection H as <-.
    now contradiction Hne.
  - unfold main.
    destruct (init w (String c svc) env dry t) as [[p|e] t1] eqn:Hinit.
    + destruct (deploy_notifies w p t1) as [d [Hd HQ]].
      destruct (deploy w p t1) as [[b|e] t2] eqn:Hdep;
        cbn [fst snd] in Hd, HQ; [|contradiction].
      cbn [fst exit_status]. destruct b.
      * repeat split; auto; try discriminate.
        intros _. exists (String c svc), p, t1, t2.
        repeat split; auto. discriminate.
      * repeat split; auto; try discriminate.
        intros (svc' & p' & t1' & t2' & H & _ & Hi & Hdp).
        injection H as <-. rewrite Hinit in Hi. injection Hi as <- <-.
        rewrite Hdep in Hdp. discriminate.
    + cbn [fst exit_status]. repeat split; auto; try discriminate.
      * intros (svc' & p' & t1' & t2' & H & _ & Hi & _).
        injection H as <-. rewrite Hinit in Hi. discriminate.
      * intros e' H. injection H as <-. exists (String c svc), t1. auto.
  - cbn [main fst exit_status]. repeat split; auto; try discriminate.
    intros (svc & p & t1 & t2 & H & _). discriminate.
Qed.

Lemma in_env_choices (v : string) :
  existsb (String.eqb v) env_choices = true <-> In v env_choices.
Proof.
  rewrite existsb_exists. split.
  - intros (x & Hin & Heq). apply String.eqb_eq in Heq. now subst x.
  - intros Hin. exists v. split; [exact Hin | apply String.eqb_refl].
Qed.

(** X12. [main] exits with status 0, 1 or 2 (an uncaught exception counts
    as 1).  A request for help prints the help and exits with 0.  The
    status is 2 exactly when [argparse] rejects the command line, which
    includes a value of [--env] other than "dev", "staging" and
    "production"; nothing has been done then.  A [DEPLOY_ENV] outside that
    list is not rejected.  Otherwise the service name is [--service] or
    else [SERVICE_NAME], the environment is [--env] or else [DEPLOY_ENV] or
    else "staging", and the status is 0 exactly when the service name is
    not empty, the pipeline was constructed and [deploy] returned true;
    without a service name [main] prints the usage error and exits with 1
    before touching anything; it ends with an uncaught exception only when
    constructing the pipeline raised it. *)
Theorem main_exit_status (w : World) (cli : Cli) (t : Trace) :
  let accepted env :=
    forall v, env = Some v -> In v env_choices in
  (exit_status (fst (main_cli w cli t)) = 0 \/
   exit_status (fst (main_cli w cli t)) = 1 \/
   exit_status (fst (main_cli w cli t)) = 2) /\
  (forall text, cli = CliHelp text ->
     main_cli w cli t = (Exited 0, (t ++ [EvPrint text])%list)) /\
  (exit_status (fst (main_cli w cli t)) = 2 <->
   cli = CliRejected \/
   exists service v dry,
     cli = CliOptions service (Some v) dry /\ ~ In v env_choices) /\
  (exit_status (fst (main_cli w cli t)) = 2 -> main_cli w cli t = (Exited 2, t)) /\
  (forall service dry,
     cli = CliOptions service None dry ->
     main_cli w cli t
     = main w (cli_service w service)
         (getenv_default w "DEPLOY_ENV" "staging") dry t) /\
  (exit_status (fst (main_cli w cli t)) = 0 <->
   (exists text, cli = CliHelp text) \/
   exists service env dry svc p t1 t2,
     cli = CliOptions service env dry /\ accepted env /\
     cli_service w service = Some svc /\ svc <> "" /\
     init w svc (cli_env w env) dry t = (Ok p, t1) /\
     deploy w p t1 = (Ok true, t2)) /\
  (forall e, fst (main_cli w cli t) = Traceback e ->
     exists service env dry svc t1,
       cli = CliOptions service env dry /\ accepted env /\
       cli_service w service = Some svc /\
       init w svc (cli_env w env) dry t = (Raise e, t1)) /\
  (forall service env dry,
     cli = CliOptions service env dry -> accepted env ->
     truthy (cli_service w service) = false ->
     main_cli w cli t =
       (Exited 1,
        (t ++ [EvPrint "❌ Error: SERVICE_NAME must be provided via --service or environment variable"])%list)).
Proof.
  cbv zeta. destruct cli as [text| |service env dry].
  - cbn [main_cli fst exit_status].
    repeat split; auto; try discriminate.
    + intros text' H. now injection H as <-.
    + intros [H|(s & v & d & H & _)]; discriminate.
    + intros _. left. now exists text.
  - cbn [main_cli fst exit_status].
    repeat split; auto; try discriminate.
    intros [(text & H)|(s & e & d & svc & p & t1 & t2 & H & _)];
      discriminate.
  - unfold main_cli.
    destruct (main_parsed_outcome w (cli_service w service) (cli_env w env)
                dry t) as (H01 & H0 & Htb & Hnone).
    destruct (match env with
              | Some v => existsb (String.eqb v) env_choices
              | None => true
              end) eqn:Hacc.
    + assert (Hok : forall v, env = Some v -> In v env_choices).
      { intros v ->. now apply in_env_choices. }
      split; [destruct H01 as [H|H]; rewrite H; auto|].
      split; [discriminate|].
      split.
      { split.
        - intros H2. destruct H01 as [H|H]; rewrite H in H2; discriminate.
        - intros [H|(s & v & d & H & Hv)]; [discriminate|].
          injection H as _ -> _. contradiction (Hv (Hok v eq_refl)). }
      split.
      { intros H2. destruct H01 as [H|H]; rewrite H in H2; discriminate. }
      split; [intros s d H; injection H as <- -> <-; reflexivity|].
      split.
      { rewrite H0. split.
        - intros (svc & p & t1 & t2 & Hs & Hne & Hi & Hd). right.
          exists service, env, dry, svc, p, t1, t2. auto 10.
        - intros [(text & H)|(s & e & d & svc & p & t1 & t2 & H & _ & Hs
                              & Hne & Hi & Hd)]; [discriminate|].
          injection H as <- <- <-. exists svc, p, t1, t2. auto. }
      split.
      { intros e He. destruct (Htb e He) as (svc & t1 & Hs & Hi).
        exists service, env, dry, svc, t1. auto. }
      intros s e d H _ Hno. injection H as <- <- <-. exact (Hnone Hno).
    + destruct env as [v|]; [|discriminate].
      assert (Hbad : ~ In v env_choices).
      { intros Hin. apply in_env_choices in Hin. congruence. }
      cbn [fst exit_status].
      split; [auto|]. split; [discriminate|].
      split; [split; auto; intros _; right; exists service, v, dry; auto|].
      split; [reflexivity|].
      split; [discriminate|].
      split.
      { split; [discriminate|].
        intros [(text & H)|(s & e & d & svc & p & t1 & t2 & H & Hok & _)];
          [discriminate|].
        injection H as <- <- <-. contradiction (Hbad (Hok v eq_refl)). }
      split; [discriminate|].
      intros s e d H Hok. injection H as <- <- <-.
      contradiction (Hbad (Hok v eq_refl)).
Qed.

(** [--env prod] on the command line. *)
Lemma main_exit_status_witness :
  exit_status
    (fst (main_cli Samples.happy
            (CliOptions (Some "user-api") (Some "prod") false) [])) = 2.
Proof.
  apply (proj1 (proj2 (proj2 (main_exit_status Samples.happy
           (CliOptions (Some "user-api") (Some "prod") false) [])))).
  right. exists (Some "user-api"), "prod", false.
  split; [reflexivity|].
  intros [H|[H|[H|[]]]]; discriminate H.
Defined.

(** ** Dry run: what the stages return *)



(** ** SecurityScan: the bypass is an allow-list *)

(** X14. In a real run the scan stage runs one command, the scanner on the
    image with [--exit-code 1]; when it exits non-zero, the stage returns
    false in every environment whose name is not exactly "dev" or
    "staging" (so also for "prod", "Staging" or an empty name), and the
    last line it prints is the scanner's output, with no bypass note
    after it. *)
Theorem scan_blocks_outside_allow_list (w : World) (self : Pipeline)
    (image_tag : string) (t : Trace) (rc : Z) :
  dry_run self = false ->
  scan_returncode w self image_tag t = Some rc ->
  rc <> 0 ->
  environment self <> "dev" ->
  environment self <> "staging" ->
  exists d r,
    security_scan w self image_tag t = (Ok false, (t ++ d)%list) /\
    execs d =
      [("trivy image --severity HIGH,CRITICAL --exit-code 1 " ++ image_tag,
        rc)] /\
    shell w (t ++ [EvPrint ("🔍 Scanning image for vulnerabilities: "
                            ++ image_tag)])%list
      (scan_cmd image_tag) = Completed r /\
    returncode r = rc /\
    last d (EvSleep 0) = EvPrint (stdout r).
Proof.
  intros Hreal. unfold scan_returncode, security_scan.
  cbv [bind print emit ret].
  destruct (shell w _ (scan_cmd image_tag)) as [r|e] eqn:Hsh.
  - rewrite (run_command_completed w self _ false _ _ Hreal Hsh).
    cbn [andb fst]. intros Hsome Hrc Hdev Hstg. injection Hsome as Hsome.
    rewrite Hsome.
    apply Z.eqb_neq in Hrc. rewrite Hrc. cbn [negb]. cbv beta iota.
    apply String.eqb_neq in Hdev, Hstg.
    cbn [existsb]. rewrite Hdev, Hstg. cbn [orb]. cbv beta iota.
    rewrite <- !app_assoc. cbn [app].
    eexists [_; _; _; _], r. split; [reflexivity|].
    split; [reflexivity|]. split; [reflexivity|].
    split; [exact Hsome|reflexivity].
  - rewrite (run_command_crashed w self _ false _ _ Hreal Hsh).
    cbn [fst]. discriminate.
Qed.

(** A finding in an environment called "Staging". *)
Lemma scan_blocks_outside_allow_list_witness :
  fst (security_scan (Samples.failing "trivy" 1 "CVE-0" "" Samples.happy)
         (Samples.pipeline "Staging" false) "user-api:01234567" [])
  = Ok false.
Proof.
  destruct (scan_blocks_outside_allow_list
              (Samples.failing "trivy" 1 "CVE-0" "" Samples.happy)
              (Samples.pipeline "Staging" false) "user-api:01234567" [] 1
              eq_refl)
    as (d & r & Hd & _);
    [vm_compute; reflexivity | discriminate | discriminate | discriminate |].
  rewrite Hd. reflexivity.
Defined.

(** ** The success path *)

(** X17. When every stage succeeds, [deploy] returns true: after the wait
    stage it reads the clock once, prints the summary with the image
    reference and the duration since the pipeline was constructed, and
    notifies "Deployed <image> in <duration>s"; it does nothing else. *)
Theorem all_stages_succeed (w : World) (self : Pipeline)
    (t0 t1 t2 t3 t4 t5 t6 : Trace) (img : string) :
  run_tests w self (t0 ++ banner self)%list = (Ok true, t1) ->
  build_image w self t1 = (Ok img, t2) ->
  security_scan w self img t2 = (Ok true, t3) ->
  update_manifest w self img t3 = (Ok tt, t4) ->
  trigger_argocd_sync w self t4 = (Ok true, t5) ->
  wait_for_deployment w self 600 t5 = (Ok true, t6) ->
  let duration := now w t6 - deployment_start self in
  exists d,
    deploy w self t0 =
      (Ok true,
       (t6 ++ [ EvPrint (nl ++ rule60);
                EvPrint ("✅ Successfully deployed " ++ img ++ " to "
                         ++ environment self);
                EvPrint ("⏱️  Total deployment time: " ++ str_of_Z duration
                         ++ " seconds");
                EvPrint (rule60 ++ nl) ] ++ d)%list) /\
    Forall (notif_event ("Deployed " ++ img ++ " in " ++ str_of_Z duration
                         ++ "s")) d.
Proof.
  intros H1 H2 H3 H4 H5 H6. cbv zeta.
  set (duration := now w t6 - deployment_start self).
  destruct (send_notification_spec w self true
              ("Deployed " ++ img ++ " in " ++ str_of_Z duration ++ "s")
              (t6 ++ [ EvPrint (nl ++ rule60);
                       EvPrint ("✅ Successfully deployed " ++ img ++ " to "
                                ++ environment self);
                       EvPrint ("⏱️  Total deployment time: "
                                ++ str_of_Z duration ++ " seconds");
                       EvPrint (rule60 ++ nl) ])%list) as [d [Hn Fn]].
  exists d. split; [|exact Fn].
  rewrite deploy_unfold. unfold try_except, deploy_body. cbv [bind].
  rewrite H1. cbn [negb]. cbv beta iota. rewrite H2. cbv beta iota.
  rewrite H3. cbn [negb]. cbv beta iota. rewrite H4. cbv beta iota.
  rewrite H5. cbn [negb]. cbv beta iota. rewrite H6. cbn [negb].
  cbv [print emit ask]. cbv beta iota zeta. fold duration.
  rewrite <- !app_assoc. cbn [app]. rewrite Hn. cbv [ret].
  rewrite <- !app_assoc. reflexivity.
Qed.

(** The staging pipeline in a world where everything works. *)
Lemma all_stages_succeed_witness :
  fst (deploy Samples.happy (Samples.pipeline "staging" false) [])
  = Ok true.
Proof.
  pose (W := Samples.happy).
  pose (S := Samples.pipeline "staging" false).
  pose (img := "registry.company.com/user-api:01234567").
  pose (t1 := snd (run_tests W S ([] ++ banner S)%list)).
  pose (t2 := snd (build_image W S t1)).
  pose (t3 := snd (security_scan W S img t2)).
  pose (t4 := snd (update_manifest W S img t3)).
  pose (t5 := snd (trigger_argocd_sync W S t4)).
  pose (t6 := snd (wait_for_deployment W S 600 t5)).
  destruct (all_stages_succeed W S [] t1 t2 t3 t4 t5 t6 img)
    as (d & Hd & _); [vm_compute; reflexivity ..|].
  fold W S. rewrite Hd. reflexivity.
Defined.

(** ** HealthVerify: what is requested *)

Lemma health_loop_poll_events (w : World) (self : Pipeline) (mr : Z)
    (attempts : list Z) :
  Emits (health_poll_event self) (health_loop w self mr attempts).
Proof.
  induction attempts as [|a rest IH]; cbn [health_loop];
    unfold requests_get, service_url; emits;
    first [ exact I | exact IH | idtac ].
  all: cbn [health_poll_event]; split; [|reflexivity];
    rewrite !string_app_assoc; reflexivity.
Qed.

(** X18. Health verification only prints, sleeps and sends GET requests,
    and every GET goes to [https://<service>.<environment>.company.com/health]
    with a timeout of 10 seconds: it runs no command, writes no file and
    posts nothing. *)
Theorem verify_health_requests (w : World) (self : Pipeline) :
  Emits (health_poll_event self) (_verify_health w self).
Proof.
  unfold _verify_health.
  emits; first [ exact I | apply health_loop_poll_events ].
Qed.

(** ** The manifest is written at most once per run *)

Lemma no_write_writes (d : Trace) : Forall no_write d -> writes d = [].
Proof.
  induction 1 as [|e d He _ IH]; [reflexivity|].
  unfold writes in *. cbn [flat_map]. rewrite IH, app_nil_r.
  destruct e; try reflexivity. destruct He.
Qed.

Section ManifestOnce.

Variables (w : World) (self : Pipeline).

Lemma not_deploying_no_write {A} (m : M A) :
  Emits not_deploying m -> Emits no_write m.
Proof.
  apply Emits_weaken. intros [| | | | | | | |url b [pr dr|] res|];
    cbn [not_deploying no_write]; tauto.
Qed.

Lemma notification_no_write (success : bool) (message : string) :
  Emits no_write (send_notification w self success message).
Proof.
  eapply Emits_weaken; [|apply send_notification_events].
  intros [| | | | | | | |url [b|] [pr dr|] res|];
    cbn [notif_event no_write]; tauto.
Qed.

Lemma run_command_no_write (cmd : string) (check : bool) :
  Emits no_write (_run_command w self cmd check).
Proof. apply Emits_run_command; intros; exact I. Qed.

Lemma sync_no_write : Emits no_write (trigger_argocd_sync w self).
Proof. unfold trigger_argocd_sync, requests_post. emits; exact I. Qed.

Lemma rollback_no_write : Emits no_write (rollback w self).
Proof.
  unfold rollback. emits; first [exact I | apply run_command_no_write].
Qed.

Lemma wait_no_write (timeout : Z) :
  Emits no_write (wait_for_deployment w self timeout).
Proof.
  assert (Hloop : forall mr attempts,
            Emits no_write (health_loop w self mr attempts)).
  { intros mr attempts. eapply Emits_weaken;
      [|apply health_loop_poll_events].
    intros [| | | | | | | | |]; cbn [health_poll_event no_write]; tauto. }
  unfold wait_for_deployment, _verify_health.
  emits; first [exact I | apply run_command_no_write | apply Hloop].
Qed.

(** [update_manifest] writes nothing or the manifest, once. *)
Lemma update_manifest_writes (image_tag : string) (t : Trace) :
  exists d,
    snd (update_manifest w self image_tag t) = (t ++ d)%list /\
    manifest_written_once self d.
Proof.
  assert (Hgit : forall tag, Emits no_write (run_all w self (git_commands self tag)))
    by (intros tag; apply Emits_run_all; intros;
        apply run_command_no_write).
  unfold update_manifest. cbv [bind print emit ask raise ret].
  destruct (path_exists w t (manifest_path self)); cbn [negb].
  - destruct (load_yaml w _ (manifest_path self)) as [msg|values].
    + eexists [_; _; _]. cbn [snd]. rewrite <- !app_assoc.
      split; [reflexivity|]. left. reflexivity.
    + destruct (update_doc _ _ _ values) as [e|doc].
      * eexists [_; _; _]. cbn [snd]. rewrite <- !app_assoc.
        split; [reflexivity|]. left. reflexivity.
      * match goal with
        | |- context [run_all w self ?cmds ?t0] =>
            destruct (Hgit (extract_tag image_tag) t0) as [dg [Hg Fg]];
            destruct (run_all w self cmds t0) as [[[]|e] tg];
            cbn [snd] in Hg; subst tg
        end.
        -- cbn [snd].
           exists ([EvPathExists (manifest_path self) true;
                    EvPrint ("📝 Updating manifest: " ++ manifest_path self);
                    EvReadYaml (manifest_path self);
                    EvWriteYaml (manifest_path self) doc]
                   ++ dg ++ [EvPrint "✅ Manifest updated and pushed"])%list.
           rewrite <- !app_assoc. split; [reflexivity|].
           right. exists doc. rewrite !writes_app, (no_write_writes _ Fg).
           reflexivity.
        -- cbn [snd].
           exists ([EvPathExists (manifest_path self) true;
                    EvPrint ("📝 Updating manifest: " ++ manifest_path self);
                    EvReadYaml (manifest_path self);
                    EvWriteYaml (manifest_path self) doc] ++ dg)%list.
           rewrite <- !app_assoc. split; [reflexivity|].
           right. exists doc. rewrite !writes_app, (no_write_writes _ Fg).
           reflexivity.
  - eexists [_]. cbn [snd]. split; [reflexivity|]. left. reflexivity.
Qed.

Lemma written_once_stable {R} (r : Res R) (d0 d : Trace) :
  Forall no_write d0 -> manifest_written_once self d ->
  manifest_written_once self (d0 ++ d)%list.
Proof.
  intros H0. unfold manifest_written_once.
  rewrite writes_app, (no_write_writes _ H0). exact (fun H => H).
Qed.

Lemma written_once_then_quiet (d d1 : Trace) :
  manifest_written_once self d -> Forall no_write d1 ->
  manifest_written_once self (d ++ d1)%list.
Proof.
  intros H H1. unfold manifest_written_once in *.
  rewrite writes_app, (no_write_writes _ H1), app_nil_r. exact H.
Qed.

Ltac quiet :=
  first [ apply notification_no_write
        | apply sync_no_write
        | apply rollback_no_write
        | apply wait_no_write
        | apply not_deploying_no_write;
          first [ apply run_tests_not_deploying
                | apply build_image_not_deploying
                | apply security_scan_not_deploying ]
        | exact I ].

Lemma deploy_body_writes_once :
  Ends (fun _ => manifest_written_once self) (deploy_body w self).
Proof.
  unfold deploy_body.
  apply (Ends_bind no_write); [quiet | | | intros ok].
  { intros; left; now apply no_write_writes. }
  { intros r; apply (written_once_stable r). }
  destruct (negb ok).
  { intro t. destruct (Emits_bind no_write _ (fun _ => ret false)
                         (notification_no_write false "Tests failed")
                         (fun _ => Emits_ret no_write false) t)
      as [d [Hd Fd]].
    exists d. split; [exact Hd|]. left. now apply no_write_writes. }
  apply (Ends_bind no_write); [quiet | | | intros image_tag].
  { intros; left; now apply no_write_writes. }
  { intros r; apply (written_once_stable r). }
  apply (Ends_bind no_write); [quiet | | | intros ok2].
  { intros; left; now apply no_write_writes. }
  { intros r; apply (written_once_stable r). }
  destruct (negb ok2).
  { intro t. destruct (Emits_bind no_write _ (fun _ => ret false)
                         (notification_no_write false "Security scan failed")
                         (fun _ => Emits_ret no_write false) t)
      as [d [Hd Fd]].
    exists d. split; [exact Hd|]. left. now apply no_write_writes. }
  intro t. unfold bind at 1.
  destruct (update_manifest_writes image_tag t) as [d [Hd Hw]].
  destruct (update_manifest w self image_tag t) as [[[]|e] t'];
    cbn [snd] in Hd; subst t'.
  - match goal with
    | |- context [bind ?m ?k (t ++ d)%list] =>
        assert (Hrest : Emits no_write (bind m k))
          by (emits; quiet)
    end.
    destruct (Hrest (t ++ d)%list) as [d1 [Hd1 F1]].
    exists (d ++ d1)%list. rewrite Hd1, app_assoc.
    split; [reflexivity|]. apply written_once_then_quiet; assumption.
  - exists d. cbn [fst snd]. split; [reflexivity|]. exact Hw.
Qed.

End ManifestOnce.

(** X19. One run of [deploy] writes at most one file, and that file is the
    manifest of the pipeline's environment, [deploy/<environment>/values.yaml]
    as [pathlib] normalises it; no other path is ever written. *)
Theorem deploy_writes_manifest_once (w : World) (self : Pipeline)
    (t : Trace) :
  exists d,
    snd (deploy w self t) = (t ++ d)%list /\
    (writes d = [] \/
     exists doc,
       writes d = [(manifest_path self, doc)]).
Proof.
  rewrite deploy_unfold.
  destruct (Ends_try (fun _ => manifest_written_once self)
              (fun _ => manifest_written_once self)
              (deploy_body w self)
              (fun e =>
                 print (nl ++ "❌ Deployment failed with error: " ++ exn_msg e) ;;;
                 send_notification w self false
                   ("Deployment error: " ++ exn_msg e) ;;;
                 ret false)
              (deploy_body_writes_once w self))
    with (t := (t ++ banner self)%list) as [d [Hd HQ]].
  - intros a d H. exact H.
  - intros e d0 t' H0.
    assert (Hh : Emits no_write
              (print (nl ++ "❌ Deployment failed with error: " ++ exn_msg e) ;;;
               send_notification w self false
                 ("Deployment error: " ++ exn_msg e) ;;;
               ret false))
      by (emits; first [exact I | apply notification_no_write]).
    destruct (Hh (t' ++ d0)%list) as [d [Hd Fd]].
    exists d. split; [exact Hd|].
    apply written_once_then_quiet; assumption.
  - exists (banner self ++ d)%list. rewrite Hd, app_assoc.
    split; [reflexivity|].
    assert (Hb : Forall no_write (banner self))
      by (unfold banner; repeat constructor).
    unfold manifest_written_once in HQ.
    rewrite writes_app, (no_write_writes _ Hb). exact HQ.
Qed.

(** ** The extracted tag has no colon *)

Lemma split_pieces_no_sep (c : ascii) (s : string) :
  Forall (fun p => contains_char c p = false) (split c s).
Proof.
  induction s as [|a s IH]; cbn [split].
  - repeat constructor.
  - destruct (Ascii.eqb a c) eqn:E.
    + constructor; [reflexivity | exact IH].
    + destruct (split c s) as [|p ps]; [repeat constructor; cbn; now rewrite E|].
      inversion IH as [|? ? Hp Hps]; subst.
      constructor; [|exact Hps]. cbn [contains_char]. now rewrite E.
Qed.

(** X20. The tag that [update_manifest] extracts from an image reference
    never contains a [:], whatever the reference is; for a reference that
    ends in [:] it is the empty string. *)
Theorem extract_tag_colon_free (image_tag : string) :
  contains_char ":" (extract_tag image_tag) = false /\
  (forall a, contains_char ":" a = false ->
     image_tag = a ++ ":" -> extract_tag image_tag = "").
Proof.
  split.
  - unfold extract_tag. destruct (contains_char ":" image_tag); [|reflexivity].
    pose proof (split_pieces_no_sep ":" image_tag) as H.
    destruct (split ":" image_tag) as [|p [|q qs]]; try reflexivity.
    inversion H as [|? ? _ H']; subst. inversion H'; subst. assumption.
  - intros a Ha ->. apply extract_tag_second; [exact Ha | reflexivity].
Qed.

(** A reference that ends in a colon. *)
Lemma extract_tag_colon_free_witness :
  contains_char ":" "registry/user-api" = false /\
  extract_tag "registry/user-api:" = "".
Proof.
  split; [reflexivity|].
  apply (proj2 (extract_tag_colon_free "registry/user-api:")
           "registry/user-api"); reflexivity.
Defined.

(** * The example service *)

Module ExampleApiFacts.

Import ExampleApi.

Lemma inc_same (m e : string) (s : Z) (c : Counter) :
  inc m e s c m e s = S (c m e s).
Proof. unfold inc. now rewrite !String.eqb_refl, Z.eqb_refl. Qed.

Lemma inc_other (m e m' e' : string) (s s' : Z) (c : Counter) :
  (m', e', s') <> (m, e, s) -> inc m e s c m' e' s' = c m' e' s'.
Proof.
  intros Hne. unfold inc.
  destruct (m' =? m)%string eqn:Em; [|reflexivity].
  destruct (e' =? e)%string eqn:Ee; [|reflexivity].
  destruct (s' =? s) eqn:Es; [|reflexivity].
  apply String.eqb_eq in Em, Ee. apply Z.eqb_eq in Es. congruence.
Qed.

(** X15. [get_item] rejects exactly the negative ids, with status 400 and
    the text "Item ID must be positive"; id 0 is accepted.  An accepted
    request returns the id and the name "Item <id>", counts once under
    status 200 and logs one line.  A rejected request is counted under
    status 200 as well as under status 400, and logs nothing.  No other
    counter changes. *)
Theorem get_item_spec (ts : string) (item_id : Z) (st : State) :
  (item_id < 0 ->
   fst (get_item ts item_id st)
     = HTTPException 400 "Item ID must be positive" /\
   request_count (snd (get_item ts item_id st)) "GET" "/items" 400
     = S (request_count st "GET" "/items" 400) /\
   log (snd (get_item ts item_id st)) = log st) /\
  (0 <= item_id ->
   fst (get_item ts item_id st)
     = Json [ ("item_id", YInt item_id);
              ("name", YStr ("Item " ++ str_of_Z item_id));
              ("timestamp", YStr ts) ] /\
   request_count (snd (get_item ts item_id st)) "GET" "/items" 400
     = request_count st "GET" "/items" 400 /\
   log (snd (get_item ts item_id st))
     = (log st ++ [("Fetching item " ++ str_of_Z item_id)%string])%list) /\
  request_count (snd (get_item ts item_id st)) "GET" "/items" 200
    = S (request_count st "GET" "/items" 200) /\
  (forall m e s,
     (m, e, s) <> ("GET", "/items", 200) ->
     (m, e, s) <> ("GET", "/items", 400) ->
     request_count (snd (get_item ts item_id st)) m e s
       = request_count st m e s).
Proof.
  unfold get_item. cbv zeta.
  destruct (item_id <? 0) eqn:Hneg; cbn [fst snd request_count log].
  - apply Z.ltb_lt in Hneg.
    split; [|split; [intros; lia|split]].
    + intros _. split; [reflexivity|]. split; [|reflexivity].
      rewrite inc_same, inc_other by discriminate. reflexivity.
    + rewrite inc_other by discriminate. apply inc_same.
    + intros m e s H200 H400. rewrite !inc_other by assumption. reflexivity.
  - apply Z.ltb_ge in Hneg.
    split; [intros; lia|split; [|split]].
    + intros _. split; [reflexivity|]. split; [|reflexivity].
      apply inc_other. discriminate.
    + apply inc_same.
    + intros m e s H200 _. apply inc_other. assumption.
Qed.

(** Item 0 is served. *)
Lemma get_item_spec_witness :
  0 <= 0 /\
  fst (get_item "2024-01-01T00:00:00" 0 initial)
    = Json [ ("item_id", YInt 0); ("name", YStr "Item 0");
             ("timestamp", YStr "2024-01-01T00:00:00") ].
Proof.
  split; [lia|].
  apply (proj1 (proj2 (get_item_spec "2024-01-01T00:00:00" 0 initial))).
  lia.
Defined.

(** X16. After any sequence of requests, the counter for item lookups with
    status 200 has grown by the number of item lookups, rejected ones
    included, and the counter with status 400 by the number of lookups
    with a negative id; health and readiness probes are not counted
    anywhere.  So the 200 counter minus the 400 counter is the number of
    lookups that succeeded. *)
Theorem item_counters_invariant (clock : nat -> string) (rqs : list Request) :
  forall (n : nat) (st : State),
    request_count (serve_all clock n rqs st) "GET" "/items" 200
      = (request_count st "GET" "/items" 200%Z
         + length (filter is_get_item rqs))%nat /\
    request_count (serve_all clock n rqs st) "GET" "/items" 400
      = (request_count st "GET" "/items" 400%Z
         + length (filter is_bad_item rqs))%nat /\
    (forallb (fun rq => match rq with
                        | GetHealth | GetReady => true
                        | _ => false
                        end) rqs = true ->
     serve_all clock n rqs st = st).
Proof.
  induction rqs as [|rq rest IH]; intros n st.
  - cbn. repeat split; auto.
  - cbn [serve_all filter forallb].
    destruct (IH (S n) (snd (serve (clock n) rq st))) as (H200 & H400 & Hp).
    rewrite H200, H400.
    split; [|split].
    + destruct rq as [| | |item_id|name description];
        cbn [serve is_get_item root health_check readiness_check
             create_item snd request_count length];
        rewrite ?inc_other by discriminate; try reflexivity.
      unfold get_item. cbv zeta.
      destruct (item_id <? 0); cbn [snd request_count];
        rewrite ?(inc_other "GET" "/items" "GET" "/items" 400 200)
          by discriminate;
        rewrite inc_same; lia.
    + destruct rq as [| | |item_id|name description];
        cbn [serve is_bad_item root health_check readiness_check
             create_item snd request_count length];
        rewrite ?inc_other by discriminate; try reflexivity.
      unfold get_item. cbv zeta.
      destruct (item_id <? 0); cbn [snd request_count length].
      * rewrite inc_same, inc_other by discriminate. lia.
      * rewrite inc_other by discriminate. reflexivity.
    + destruct rq as [| | |item_id|name description];
        cbn [andb]; try discriminate;
        cbn [serve health_check readiness_check snd] in *; exact Hp.
Qed.

End ExampleApiFacts.
